(** * The Nexus chat page: a model of [frontend/app/chat/page.tsx]

    The page is a React component with four pieces of state ([input],
    [isThinking], [resolvedActions], [messages]), two asynchronous handlers
    ([handleSend], [handleExecute]) that talk to the chat endpoint with
    [fetch], and a render function that draws one bubble per message and an
    approval card for messages that carry [actionRequired].

    The embedding is shallow and executable:
    - JavaScript strings are sequences of UTF-16 code units;
    - values coming out of [res.json()] are a small inductive [JSValue];
    - handlers are written in an exception/state monad [Eff] over a [World]
      that holds the React state, the log of [fetch] calls, the suspended
      handlers and the clock;
    - an [async] handler is split at its [await]: the part before it issues
      the request and suspends, the part after it runs when the request
      settles;
    - closures stored in messages ([onApprove], [onDeny]) are kept as data
      together with the variables they captured.

    Conventions.  A user event reaches the handler of the current render:
    React renders again after a handler has run and before the next event
    is delivered.  The two awaits of a handler ([fetch], then [res.json()])
    are one suspension, since nothing runs between them but the test of
    [res.ok].  A response body has the members the handlers read, of the
    types [type Message] gives them.  [handleSendFake] is bound to no
    element of the page and is left out. *)

From Stdlib Require Import ZArith NArith Ascii String DecimalString.
From stdpp Require Import base option list gmap.

Set Warnings "-register-all".
Local Open Scope Z_scope.

(* ===================================================================== *)
(** ** JavaScript strings *)
(* ===================================================================== *)

Module JS.

(** A string is its sequence of UTF-16 code units. *)
Definition jsstring : Type := list N.

(** An ASCII literal of the source text, as code units. *)
Definition lit (s : string) : jsstring :=
  List.map N_of_ascii (list_ascii_of_string s).

(** [WhiteSpace] and [LineTerminator] of ECMAScript, the code units that
    [String.prototype.trim] strips. All of them lie in the BMP. *)
Definition isWhiteSpace (c : N) : bool :=
  match c with
  | 9 | 10 | 11 | 12 | 13 | 32 | 160 | 5760
  | 8192 | 8193 | 8194 | 8195 | 8196 | 8197 | 8198 | 8199 | 8200
  | 8201 | 8202 | 8232 | 8233 | 8239 | 8287 | 12288 | 65279 => true
  | _ => false
  end%N.

Fixpoint trimStart (s : jsstring) : jsstring :=
  match s with
  | c :: s' => if isWhiteSpace c then trimStart s' else s
  | [] => []
  end.

Definition trimEnd (s : jsstring) : jsstring := rev (trimStart (rev s)).

(** [s.trim()] *)
Definition trim (s : jsstring) : jsstring := trimEnd (trimStart s).

(** Decimal rendering of an integral number, [n.toString()].  It is what
    JavaScript prints for magnitudes below 10^21, which covers every clock
    reading and HTTP status; larger ones are printed in exponent form by
    JavaScript and in full here. *)
Definition numberToString (z : Z) : jsstring :=
  lit (NilZero.string_of_int (Z.to_int z)).

(* --------------------------------------------------------------------- *)
(** ** Values produced by [res.json()] *)
(* --------------------------------------------------------------------- *)

(** What [JSON.parse] can produce, plus [undefined] for an absent property.
    Numbers are the integral ones below 10^21 in magnitude (other JSON
    numbers have no counterpart here); an object is the list of its own
    properties. *)
Inductive JSValue : Type :=
| JUndefined
| JNull
| JBool (b : bool)
| JNum (z : Z)
| JStr (s : jsstring)
| JArr (elems : list JSValue)
| JObj (props : list (jsstring * JSValue)).

(** [ToBoolean]: the test performed by [&&], [||], [?:] and [!]. *)
Definition truthy (v : JSValue) : bool :=
  match v with
  | JUndefined | JNull => false
  | JBool b => b
  | JNum z => negb (z =? 0)
  | JStr s => match s with [] => false | _ => true end
  | JArr _ | JObj _ => true
  end.

Fixpoint assoc (k : jsstring) (props : list (jsstring * JSValue)) : JSValue :=
  match props with
  | [] => JUndefined
  | (k', v) :: rest => if bool_decide (k = k') then v else assoc k rest
  end.

(** [v.k] for a value that is neither [null] nor [undefined] and a key [k]
    that no prototype defines: only objects have it. *)
Definition getProp (v : JSValue) (k : jsstring) : JSValue :=
  match v with
  | JObj props => assoc k props
  | _ => JUndefined
  end.

Definition joinWith (sep : jsstring) (parts : list jsstring) : jsstring :=
  match parts with
  | [] => []
  | p :: ps => p ++ List.concat (List.map (fun q => sep ++ q) ps)
  end.

(** [ToString], as applied by a template literal [`${v}`]. *)
Fixpoint toString (v : JSValue) : jsstring :=
  match v with
  | JUndefined => lit "undefined"
  | JNull => lit "null"
  | JBool true => lit "true"
  | JBool false => lit "false"
  | JNum z => numberToString z
  | JStr s => s
  | JArr elems =>
      joinWith (lit ",")
        (List.map (fun e => match e with
                            | JUndefined | JNull => []
                            | _ => toString e
                            end) elems)
  | JObj _ => lit "[object Object]"
  end.

End JS.
Import JS.

(* ===================================================================== *)
(** ** Data model *)
(* ===================================================================== *)

Inductive Role : Type := user | assistant.

Inductive ActionType : Type := approval.

(** The [action_required] member of a chat response. *)
Record ActionDescriptor : Type := mkDescriptor {
  action_label : jsstring;
  action_approval_id : jsstring;
  action_params : JSValue;
}.

(** The body of a chat response, [data] after [await res.json()].  The
    handlers read [data.content], [data.trace] and [data.action_required];
    the two members they test before use are optional here. *)
Record Response : Type := mkResponse {
  data_content : jsstring;
  data_trace : option (list jsstring);
  data_action_required : option ActionDescriptor;
}.

(** [type Message].  [timestamp] is the [Date] in milliseconds.  The two
    callbacks are the closures built in [handleSend] (lines 159-172), kept
    with the variables they close over: [msgId] for both, and for
    [onApprove] also [data.action_required] and the [messages] that the
    [handleExecute] in its scope reads. *)
Inductive Message : Type := mkMessage {
  id : jsstring;
  role : Role;
  content : jsstring;
  trace : option (list jsstring);
  actionRequired : option ActionRequired;
  timestamp : Z;
}
with ActionRequired : Type := mkActionRequired {
  type : ActionType;
  label : jsstring;
  params : JSValue;
  onApprove : ApproveClosure;
  onDeny : DenyClosure;
}
with ApproveClosure : Type := mkApproveClosure {
  approve_msgId : jsstring;
  approve_data : ActionDescriptor;
  approve_messages : list Message;
}
with DenyClosure : Type := mkDenyClosure {
  deny_msgId : jsstring;
}.

(** The component's [useState] cells, i.e. what one render sees. *)
Record State : Type := mkState {
  input : jsstring;
  isThinking : bool;
  resolvedActions : gset jsstring;
  messages : list Message;
}.

(** An argument list of [fetch]; [req_body] is the value handed to
    [JSON.stringify]. *)
Record Request : Type := mkRequest {
  req_url : jsstring;
  req_method : jsstring;
  req_headers : list (jsstring * jsstring);
  req_credentials : jsstring;
  req_body : JSValue;
}.

(** How a [fetch] settles: the promise rejects, or it resolves with a
    status and a body that [res.json()] parses ([Some]) or rejects
    ([None]). *)
Inductive FetchOutcome : Type :=
| NetworkFailure
| HttpResponse (status : Z) (body : option Response).

Inductive Exn : Type :=
| TypeError (message : jsstring)
| SyntaxError (message : jsstring)
| Error (message : jsstring).

(** A handler suspended at [await fetch(...)]: which handler it is and the
    variables its remaining code still reads. *)
Inductive Continuation : Type :=
| AwaitSend (closure_messages : list Message)
| AwaitExecute.

(** Everything the page can observe or change. *)
Record World : Type := mkWorld {
  state : State;
  fetches : list Request;             (* every fetch issued so far, in order *)
  suspended : gmap nat Continuation;  (* by index into [fetches] *)
  console : list Exn;                 (* console.error *)
  clock : nat -> Z;                   (* successive readings of the clock *)
  ticks : nat;                        (* readings taken so far *)
}.

(* ===================================================================== *)
(** ** The effect monad *)
(* ===================================================================== *)

(** How a piece of code completes: normally with a value, or abruptly with
    a thrown exception.  The world survives a throw. *)
Inductive Completion (A : Type) : Type :=
| Normal (a : A)
| Throw (e : Exn).
Arguments Normal {A} a.
Arguments Throw {A} e.

Definition Eff (A : Type) : Type := World -> Completion A * World.

Definition ret {A} (a : A) : Eff A := fun w => (Normal a, w).

Definition bind {A B} (m : Eff A) (k : A -> Eff B) : Eff B :=
  fun w => match m w with
           | (Normal a, w') => k a w'
           | (Throw e, w') => (Throw e, w')
           end.

Definition throw {A} (e : Exn) : Eff A := fun w => (Throw e, w).

(** [try { body } catch (e) { handler e } finally { final }] *)
Definition try_catch_finally (body : Eff unit) (handler : Exn -> Eff unit)
    (final : Eff unit) : Eff unit :=
  fun w =>
    let after_catch :=
      match body w with
      | (Normal tt, w1) => (Normal tt, w1)
      | (Throw e, w1) => handler e w1
      end in
    match after_catch with
    | (Normal tt, w2) => final w2
    | (Throw e, w2) =>
        match final w2 with
        | (Normal tt, w3) => (Throw e, w3)
        | (Throw e', w3) => (Throw e', w3)
        end
    end.

Declare Scope eff_scope.
Delimit Scope eff_scope with eff.
Bind Scope eff_scope with Eff.
Notation "x <- m ;; k" := (bind m (fun x => k))
  (at level 100, m at next level, right associativity) : eff_scope.
Notation "m ;; k" := (bind m (fun _ => k))
  (at level 100, right associativity) : eff_scope.
Local Open Scope eff_scope.

(** *** Primitive effects *)

Definition withState (f : State -> State) (w : World) : World :=
  {| state := f (state w); fetches := fetches w; suspended := suspended w;
     console := console w; clock := clock w; ticks := ticks w |}.

(** The [useState] setters.  An updater function is applied to the latest
    state, not to the state the calling closure was rendered with. *)
Definition setInput (v : jsstring) : Eff unit := fun w =>
  (Normal tt, withState (fun s =>
     {| input := v; isThinking := isThinking s;
        resolvedActions := resolvedActions s; messages := messages s |}) w).

Definition setIsThinking (b : bool) : Eff unit := fun w =>
  (Normal tt, withState (fun s =>
     {| input := input s; isThinking := b;
        resolvedActions := resolvedActions s; messages := messages s |}) w).

Definition setResolvedActions (f : gset jsstring -> gset jsstring) : Eff unit :=
  fun w =>
  (Normal tt, withState (fun s =>
     {| input := input s; isThinking := isThinking s;
        resolvedActions := f (resolvedActions s); messages := messages s |}) w).

Definition setMessages (f : list Message -> list Message) : Eff unit := fun w =>
  (Normal tt, withState (fun s =>
     {| input := input s; isThinking := isThinking s;
        resolvedActions := resolvedActions s; messages := f (messages s) |}) w).

(** One reading of the clock. *)
Definition readClock : Eff Z := fun w =>
  (Normal (clock w (ticks w)),
   {| state := state w; fetches := fetches w; suspended := suspended w;
      console := console w; clock := clock w; ticks := S (ticks w) |}).

(** [Date.now()] and [new Date()] *)
Definition Date_now : Eff Z := readClock.
Definition new_Date : Eff Z := readClock.

Definition console_error (e : Exn) : Eff unit := fun w =>
  (Normal tt,
   {| state := state w; fetches := fetches w; suspended := suspended w;
      console := console w ++ [e]; clock := clock w; ticks := ticks w |}).

(** [await fetch(req)]: the request goes out and the rest of the handler,
    [k], is parked until the request settles. *)
Definition await_fetch (req : Request) (k : Continuation) : Eff unit := fun w =>
  (Normal tt,
   {| state := state w; fetches := fetches w ++ [req];
      suspended := <[length (fetches w) := k]> (suspended w);
      console := console w; clock := clock w; ticks := ticks w |}).

(** The value of [await fetch(...)] once settled, and of
    [await res.json()]. *)
Definition fetched (o : FetchOutcome) : Eff (Z * option Response) :=
  match o with
  | NetworkFailure => throw (TypeError (lit "Failed to fetch"))
  | HttpResponse status body => ret (status, body)
  end.

Definition ok (status : Z) : bool := (200 <=? status) && (status <=? 299).

Definition json (body : option Response) : Eff Response :=
  match body with
  | Some data => ret data
  | None => throw (SyntaxError (lit "Unexpected token"))
  end.

(* ===================================================================== *)
(** ** The component *)
(* ===================================================================== *)

Definition dquote : jsstring := [34%N].
Definition warning_sign : jsstring := [9888%N; 65039%N].

(** The two error replies, lines 182 and 237. *)
Definition connection_error : jsstring :=
  warning_sign ++ lit " Connection Error: I couldn't reach the Nexus Brain. Is Docker running?".
Definition execution_failed : jsstring :=
  warning_sign ++ lit " Execution Failed: The server encountered an error while processing the approval.".

Definition roleName (r : Role) : jsstring :=
  match r with user => lit "user" | assistant => lit "assistant" end.

(** [messages.map(m => ({ role: m.role, content: m.content }))] *)
Definition history (messages : list Message) : JSValue :=
  JArr (List.map (fun m => JObj [(lit "role", JStr (roleName (role m)));
                                 (lit "content", JStr (content m))])
                 messages).

Definition chat_url : jsstring := lit "http://localhost:8000/api/chat".

(** The [fetch] call shared by lines 128-136 and 207-215. *)
Definition chatRequest (message : jsstring) (messages : list Message) : Request :=
  {| req_url := chat_url;
     req_method := lit "POST";
     req_headers := [(lit "Content-Type", lit "application/json")];
     req_credentials := lit "include";
     req_body := JObj [(lit "message", JStr message);
                       (lit "history", history messages)] |}.

(** Lines 202-205: the text sent on approval. *)
Definition executeMessage (approvalId : jsstring) (params : JSValue) : jsstring :=
  let msg := lit "User approved action " ++ approvalId
             ++ lit ". Please call execute_action now." in
  if truthy params && truthy (getProp params (lit "list_name"))
  then msg ++ lit " Fallback Params: list_name=" ++ dquote
           ++ toString (getProp params (lit "list_name")) ++ dquote
  else msg.

(** [handleExecute], lines 190-215, up to its [await].  [messages] is the
    variable of the render in whose scope this [handleExecute] was
    created. *)
Definition handleExecute (messages : list Message)
    (approvalId : jsstring) (params : JSValue) : Eff unit :=
  setIsThinking true ;;
  let msg := executeMessage approvalId params in
  await_fetch (chatRequest msg messages) AwaitExecute.

(** [handleExecute], lines 215-244, from the settled [fetch] on. *)
Definition handleExecute_resume (o : FetchOutcome) : Eff unit :=
  try_catch_finally
    (res <- fetched o ;;
     (if negb (ok (fst res))
      then throw (Error (lit "Server error: " ++ numberToString (fst res)))
      else ret tt) ;;
     data <- json (snd res) ;;
     now <- Date_now ;;
     date <- new_Date ;;
     let aiMsg :=
       {| id := numberToString now;
          role := assistant;
          content := data_content data;
          trace := data_trace data;
          timestamp := date;
          actionRequired := None |} in
     setMessages (fun prev => prev ++ [aiMsg]))
    (fun e =>
     console_error e ;;
     now <- Date_now ;;
     date <- new_Date ;;
     let errorMsg :=
       {| id := numberToString now;
          role := assistant;
          content := execution_failed;
          trace := None;
          timestamp := date;
          actionRequired := None |} in
     setMessages (fun prev => prev ++ [errorMsg]))
    (setIsThinking false).

(** The closure of lines 159-162. *)
Definition call_onApprove (c : ApproveClosure) : Eff unit :=
  setResolvedActions (fun prev => prev ∪ {[approve_msgId c]}) ;;
  handleExecute (approve_messages c)
                (action_approval_id (approve_data c))
                (action_params (approve_data c)).

(** The closure of lines 164-172. *)
Definition call_onDeny (c : DenyClosure) : Eff unit :=
  setResolvedActions (fun prev => prev ∪ {[deny_msgId c]}) ;;
  now <- Date_now ;;
  date <- new_Date ;;
  setMessages (fun prev => prev ++
    [ {| id := numberToString now;
         role := assistant;
         content := lit "Action cancelled.";
         trace := None;
         timestamp := date;
         actionRequired := None |} ]).

(** [handleSend], lines 110-136, up to its [await].  [s] is the render the
    closure belongs to: [input] and [messages] are read from it. *)
Definition handleSend (s : State) : Eff unit :=
  if negb (truthy (JStr (trim (input s)))) then ret tt else
  now <- Date_now ;;
  date <- new_Date ;;
  let userMsg :=
    {| id := numberToString now;
       role := user;
       content := input s;
       trace := None;
       timestamp := date;
       actionRequired := None |} in
  setMessages (fun prev => prev ++ [userMsg]) ;;
  setInput [] ;;
  setIsThinking true ;;
  await_fetch (chatRequest (content userMsg) (messages s))
              (AwaitSend (messages s)).

(** [handleSend], lines 136-189, from the settled [fetch] on.  [messages]
    is the variable of the same render as above; the only code that still
    reads it is the [handleExecute] that [onApprove] calls. *)
Definition handleSend_resume (messages : list Message) (o : FetchOutcome)
    : Eff unit :=
  try_catch_finally
    (res <- fetched o ;;
     (if negb (ok (fst res))
      then throw (Error (lit "Server error: " ++ numberToString (fst res)))
      else ret tt) ;;
     data <- json (snd res) ;;
     now1 <- Date_now ;;
     let msgId := numberToString (now1 + 1) in
     now2 <- Date_now ;;
     date <- new_Date ;;
     let aiMsg :=
       {| id := numberToString (now2 + 1);
          role := assistant;
          content := data_content data;
          trace := Some (match data_trace data with
                         | Some t => t
                         | None => []
                         end);
          timestamp := date;
          actionRequired :=
            match data_action_required data with
            | Some action_required =>
                Some {| type := approval;
                        label := action_label action_required;
                        params := action_params action_required;
                        onApprove :=
                          {| approve_msgId := msgId;
                             approve_data := action_required;
                             approve_messages := messages |};
                        onDeny := {| deny_msgId := msgId |} |}
            | None => None
            end |} in
     setMessages (fun prev => prev ++ [aiMsg]))
    (fun e =>
     console_error e ;;
     now <- Date_now ;;
     date <- new_Date ;;
     let errorMsg :=
       {| id := numberToString now;
          role := assistant;
          content := connection_error;
          trace := None;
          timestamp := date;
          actionRequired := None |} in
     setMessages (fun prev => prev ++ [errorMsg]))
    (setIsThinking false).

(* --------------------------------------------------------------------- *)
(** *** Render *)
(* --------------------------------------------------------------------- *)

(** The approval card of lines 336-370: its label and either the two
    buttons with their [onClick] handlers or the Completed badge. *)
Inductive CardControls : Type :=
| Buttons (deny : DenyClosure) (approve : ApproveClosure)
| CompletedBadge.

Record Card : Type := mkCard {
  card_label : jsstring;
  card_controls : CardControls;
}.

(** One entry of [messages.map(...)], lines 284-373. *)
Record Bubble : Type := mkBubble {
  bubble_key : jsstring;
  bubble_role : Role;
  bubble_trace : option (list jsstring);
  bubble_content : jsstring;
  bubble_card : option Card;
}.

Record View : Type := mkView {
  bubbles : list Bubble;
  thinking_indicator : bool;
  input_value : jsstring;
  input_disabled : bool;
  send_disabled : bool;
}.

Definition renderMessage (resolvedActions : gset jsstring) (msg : Message)
    : Bubble :=
  {| bubble_key := id msg;
     bubble_role := role msg;
     bubble_trace := trace msg;
     bubble_content := content msg;
     bubble_card :=
       match actionRequired msg with
       | Some a =>
           Some {| card_label := label a;
                   card_controls :=
                     if negb (bool_decide (id msg ∈ resolvedActions))
                     then Buttons (onDeny a) (onApprove a)
                     else CompletedBadge |}
       | None => None
       end |}.

Definition render (s : State) : View :=
  {| bubbles := List.map (renderMessage (resolvedActions s)) (messages s);
     thinking_indicator := isThinking s;
     input_value := input s;
     input_disabled := isThinking s;
     send_disabled := negb (truthy (JStr (trim (input s)))) || isThinking s |}.

(** [onKeyDown], line 404. *)
Definition onKeyDown (s : State) (key : jsstring) : Eff unit :=
  if bool_decide (key = lit "Enter") && negb (isThinking s)
  then handleSend s
  else ret tt.

(* --------------------------------------------------------------------- *)
(** *** Events *)
(* --------------------------------------------------------------------- *)

(** What can happen to the page: the user acts on an element of the
    current view, or an outstanding request settles. *)
Inductive Event : Type :=
| Change (value : jsstring)            (* typing into the input *)
| KeyDown (key : jsstring)             (* a key pressed in the input *)
| ClickSend                            (* the send button *)
| ClickDeny (i : nat)                  (* the X button of the i-th bubble *)
| ClickApprove (i : nat)               (* the Approve button of the i-th bubble *)
| Settle (rid : nat) (o : FetchOutcome). (* request [rid] settles *)

Definition controlsAt (v : View) (i : nat) : CardControls :=
  match bubbles v !! i with
  | Some b => match bubble_card b with
              | Some c => card_controls c
              | None => CompletedBadge
              end
  | None => CompletedBadge
  end.

Definition resume (k : Continuation) (o : FetchOutcome) : Eff unit :=
  match k with
  | AwaitSend closure_messages => handleSend_resume closure_messages o
  | AwaitExecute => handleExecute_resume o
  end.

Definition unpark (rid : nat) (w : World) : World :=
  {| state := state w; fetches := fetches w;
     suspended := delete rid (suspended w);
     console := console w; clock := clock w; ticks := ticks w |}.

(** A user event reaches its handler only through an element that the
    current view shows and has not disabled; the handler it reaches is the
    one of the current render. *)
Definition dispatch (e : Event) : Eff unit := fun w =>
  let s := state w in
  let v := render s in
  match e with
  | Change value =>
      if input_disabled v then (Normal tt, w) else setInput value w
  | KeyDown key =>
      if input_disabled v then (Normal tt, w) else onKeyDown s key w
  | ClickSend =>
      if send_disabled v then (Normal tt, w) else handleSend s w
  | ClickDeny i =>
      match controlsAt v i with
      | Buttons deny _ => call_onDeny deny w
      | CompletedBadge => (Normal tt, w)
      end
  | ClickApprove i =>
      match controlsAt v i with
      | Buttons _ approve => call_onApprove approve w
      | CompletedBadge => (Normal tt, w)
      end
  | Settle rid o =>
      match suspended w !! rid with
      | Some k => resume k o (unpark rid w)
      | None => (Normal tt, w)
      end
  end.

Definition step (w : World) (e : Event) : World := snd (dispatch e w).

Definition run (w : World) (es : list Event) : World := fold_left step es w.

(** The first render: the welcome message of lines 52-59. *)
Definition welcome (date : Z) : Message :=
  {| id := lit "1";
     role := assistant;
     content := lit "Nexus Agent v1.0 initialized. I'm connected to your Klaviyo account via MCP. "
                ++ [10%N; 10%N]
                ++ lit "I can help you analyze performance, build segments, or draft campaigns. What's the plan?";
     trace := None;
     actionRequired := None;
     timestamp := date |}.

Definition initialState (date : Z) : State :=
  {| input := []; isThinking := false; resolvedActions := ∅;
     messages := [welcome date] |}.

Definition initialWorld (clock : nat -> Z) : World :=
  {| state := initialState (clock 0%nat); fetches := []; suspended := ∅;
     console := []; clock := clock; ticks := 1 |}.

(* ===================================================================== *)
(** ** Vocabulary of the properties *)
(* ===================================================================== *)

(** A request that did not produce a usable reply: the network failed, the
    status is outside 200-299, or the body is not JSON. *)
Definition requestFails (o : FetchOutcome) : bool :=
  match o with
  | NetworkFailure => true
  | HttpResponse status body =>
      negb (ok status) || match body with None => true | Some _ => false end
  end.

(** The error reply a suspended handler gives. *)
Definition errorReply (k : Continuation) : jsstring :=
  match k with
  | AwaitSend _ => connection_error
  | AwaitExecute => execution_failed
  end.

(** The world after a handler has caught [e] and replied with [text]. *)
Definition reported (w : World) (text : jsstring) (e : Exn) : World :=
  {| state :=
       {| input := input (state w); isThinking := false;
          resolvedActions := resolvedActions (state w);
          messages := messages (state w) ++
            [ {| id := numberToString (clock w (ticks w)); role := assistant;
                 content := text; trace := None; actionRequired := None;
                 timestamp := clock w (S (ticks w)) |} ] |};
     fetches := fetches w; suspended := suspended w;
     console := console w ++ [e]; clock := clock w; ticks := S (S (ticks w)) |}.

(** The world after a handler has appended the reply [m], having read the
    clock [n] times. *)
Definition replied (w : World) (m : Message) (n : nat) : World :=
  {| state :=
       {| input := input (state w); isThinking := false;
          resolvedActions := resolvedActions (state w);
          messages := messages (state w) ++ [m] |};
     fetches := fetches w; suspended := suspended w;
     console := console w; clock := clock w; ticks := (n + ticks w)%nat |}.

(** [{role, content}] and nothing else. *)
Definition isHistoryEntry (v : JSValue) : bool :=
  match v with
  | JObj [(k1, JStr r); (k2, JStr _)] =>
      bool_decide (k1 = lit "role") && bool_decide (k2 = lit "content")
      && (bool_decide (r = lit "user") || bool_decide (r = lit "assistant"))
  | _ => false
  end.

(** [{message: string, history: [{role, content}]}] *)
Definition isChatBody (v : JSValue) : bool :=
  match v with
  | JObj [(k1, JStr _); (k2, JArr entries)] =>
      bool_decide (k1 = lit "message") && bool_decide (k2 = lit "history")
      && forallb isHistoryEntry entries
  | _ => false
  end.



(** The requests issued by a step: what it added to the log. *)
Definition issued (w : World) (e : Event) : list Request :=
  drop (length (fetches w)) (fetches (step w e)).

(** The [messages] a closure holds are those of an earlier render: an
    approval card holds fewer messages than precede its own message, and a
    suspended send handler holds fewer than the page now has. *)
Definition closuresLagBehind (w : World) : Prop :=
  (forall i m a,
     messages (state w) !! i = Some m -> actionRequired m = Some a ->
     (length (approve_messages (onApprove a)) < i)%nat) /\
  (forall rid ms,
     suspended w !! rid = Some (AwaitSend ms) ->
     (length ms < length (messages (state w)))%nat).

(** The [history] member of a request body. *)
Definition historyOf (r : Request) : JSValue :=
  getProp (req_body r) (lit "history").

(* --------------------------------------------------------------------- *)
(** *** A session used in the examples *)
(* --------------------------------------------------------------------- *)

Module Demo.

(** A clock that stands still, and one that advances at every reading. *)
Definition frozen : nat -> Z := fun _ => 1700000000000.
Definition ticking : nat -> Z := fun k => 1700000000000 + Z.of_nat k.

Definition proposal : ActionDescriptor :=
  {| action_label := lit "Create list VIP Audience (demo): $300+";
     action_approval_id := lit "appr-1";
     action_params :=
       JObj [(lit "list_name", JStr (lit "VIP Audience (demo): $300+"));
             (lit "seed_profiles", JNum 5)] |}.

(** A reply that proposes an action, and one that does not. *)
Definition proposing : Response :=
  {| data_content := lit "I can create that list for you.";
     data_trace := Some [lit "> propose_action(create_list)"];
     data_action_required := Some proposal |}.

Definition plain : Response :=
  {| data_content := lit "Done.";
     data_trace := None;
     data_action_required := None |}.

(** The user asks for a list and the agent answers with a proposal: the
    page now shows the welcome message, the request and the proposal with
    its card (bubble 2). *)
Definition proposed (clock : nat -> Z) : World :=
  run (initialWorld clock)
      [Change (lit "create a VIP list"); KeyDown (lit "Enter");
       Settle 0 (HttpResponse 200 (Some proposing))].

(** The same, with a second question typed, sent and still unanswered. *)
Definition asking_again (clock : nat -> Z) : World :=
  run (proposed clock) [Change (lit "and how many profiles?"); ClickSend].

(** The two closures of the card of [proposed frozen]. *)
Definition the_deny : DenyClosure :=
  {| deny_msgId := numberToString 1700000000001 |}.
Definition the_approve : ApproveClosure :=
  {| approve_msgId := numberToString 1700000000001;
     approve_data := proposal;
     approve_messages := [welcome 1700000000000] |}.

End Demo.

(* --------------------------------------------------------------------- *)
(** *** The step relation *)
(* --------------------------------------------------------------------- *)

(** The [actionRequired] literal of lines 154-173, for the descriptor [d]
    of a reply, the [msgId] read before it and the [messages] of the
    handler's render. *)
Definition cardFor (msgId : jsstring) (d : ActionDescriptor)
    (closure_messages : list Message) : ActionRequired :=
  {| type := approval;
     label := action_label d;
     params := action_params d;
     onApprove := {| approve_msgId := msgId;
                     approve_data := d;
                     approve_messages := closure_messages |};
     onDeny := {| deny_msgId := msgId |} |}.

(** [dispatch] as a relation: which handler an event reaches, and when. *)
Inductive fires (w : World) : Event -> World -> Prop :=
| fires_nothing (e : Event) :
    fires w e w
| fires_change (value : jsstring) :
    isThinking (state w) = false ->
    fires w (Change value) (snd (setInput value w))
| fires_send (e : Event) :
    e = ClickSend \/ e = KeyDown (lit "Enter") ->
    send_disabled (render (state w)) = false ->
    fires w e (snd (handleSend (state w) w))
| fires_deny (i : nat) (deny : DenyClosure) (approve : ApproveClosure) :
    controlsAt (render (state w)) i = Buttons deny approve ->
    fires w (ClickDeny i) (snd (call_onDeny deny w))
| fires_approve (i : nat) (deny : DenyClosure) (approve : ApproveClosure) :
    controlsAt (render (state w)) i = Buttons deny approve ->
    fires w (ClickApprove i) (snd (call_onApprove approve w))
| fires_settle (rid : nat) (k : Continuation) (o : FetchOutcome) :
    suspended w !! rid = Some k ->
    fires w (Settle rid o) (snd (resume k o (unpark rid w))).


(** User messages are plain; a message with a card is the assistant's, and
    the card shows the label and params of the descriptor its Approve
    button holds, both buttons recording the same id. *)
Definition cardsConsistent (w : World) : Prop :=
  forall i m,
    messages (state w) !! i = Some m ->
    (role m = user -> actionRequired m = None /\ trace m = None) /\
    (forall a, actionRequired m = Some a ->
       role m = assistant /\
       label a = action_label (approve_data (onApprove a)) /\
       params a = action_params (approve_data (onApprove a)) /\
       deny_msgId (onDeny a) = approve_msgId (onApprove a)).

(** While the indicator spins some handler is suspended. *)
Definition thinkingHasCause (w : World) : Prop :=
  isThinking (state w) = true -> exists rid k, suspended w !! rid = Some k.

(* --------------------------------------------------------------------- *)
(** *** Proof automation *)
(* --------------------------------------------------------------------- *)

Create HintDb eff discriminated.
#[global] Hint Unfold bind ret throw try_catch_finally
  setInput setIsThinking setResolvedActions setMessages withState
  readClock Date_now new_Date console_error await_fetch fetched json : eff.

(** Run a handler symbolically. *)
Ltac run_eff := autounfold with eff; cbn [fst snd].

(* ===================================================================== *)
(** ** Facts about strings and values *)
(* ===================================================================== *)

Section Strings.

Example numberToString_ex : numberToString 1700000000001 = lit "1700000000001".
Proof. reflexivity. Qed.

Example trim_ex : trim (lit "  hi there  ") = lit "hi there".
Proof. reflexivity. Qed.

Example toString_arr_ex :
  toString (JArr [JNum 1; JNull; JStr (lit "a"); JArr [JBool true; JNum (-2)]])
  = lit "1,,a,true,-2".
Proof. reflexivity. Qed.

Lemma trimStart_all_white (s : jsstring) :
  forallb isWhiteSpace s = true -> trimStart s = [].
Proof.
  induction s as [|c s IH]; simpl; [reflexivity|].
  intros H. apply andb_prop in H as [Hc Hs]. rewrite Hc. auto.
Qed.

(** What [trimStart] leaves is empty or starts with a visible unit. *)
Lemma trimStart_head (s : jsstring) :
  trimStart s = [] \/
  exists c t, trimStart s = c :: t /\ isWhiteSpace c = false.
Proof.
  induction s as [|c s IH]; simpl; [now left|].
  destruct (isWhiteSpace c) eqn:E; [exact IH|].
  right. exists c, s. auto.
Qed.

Lemma trimStart_empty_inv (s : jsstring) :
  trimStart s = [] -> forallb isWhiteSpace s = true.
Proof.
  induction s as [|c s IH]; simpl; [reflexivity|].
  destruct (isWhiteSpace c); [exact IH | discriminate].
Qed.

(** [s.trim()] is the empty string exactly for the strings made of white
    space only (the empty one among them). *)
Lemma trim_empty_iff (s : jsstring) :
  trim s = [] <-> forallb isWhiteSpace s = true.
Proof.
  unfold trim, trimEnd. split.
  - intros H.
    assert (Hr : trimStart (rev (trimStart s)) = []).
    { destruct (trimStart (rev (trimStart s))) as [|c t] eqn:E; [reflexivity|].
      simpl in H. apply app_eq_nil in H as [_ H]. discriminate. }
    apply trimStart_empty_inv in Hr.
    destruct (trimStart_head s) as [E | (c & t & E & Hc)].
    + now apply trimStart_empty_inv.
    + rewrite E in Hr. simpl in Hr. rewrite forallb_app in Hr.
      apply andb_prop in Hr as [_ Hr]. simpl in Hr. rewrite Hc in Hr.
      discriminate.
  - intros H. now rewrite (trimStart_all_white s H).
Qed.

(** The guard [!input.trim()] *)
Lemma blank_guard (s : jsstring) :
  negb (truthy (JStr (trim s))) = true <-> forallb isWhiteSpace s = true.
Proof.
  rewrite <- trim_empty_iff. simpl. destruct (trim s); simpl; split;
    congruence.
Qed.


End Strings.

(* ===================================================================== *)
(** ** What each handler does to the world *)
(* ===================================================================== *)

Section Handlers.

Variable w : World.

Lemma handleSend_blank (s : State) :
  forallb isWhiteSpace (input s) = true -> handleSend s w = (Normal tt, w).
Proof.
  intros H. apply blank_guard in H. unfold handleSend. now rewrite H.
Qed.

Lemma handleSend_sends (s : State) :
  forallb isWhiteSpace (input s) = false ->
  handleSend s w =
  (Normal tt,
   {| state :=
        {| input := []; isThinking := true;
           resolvedActions := resolvedActions (state w);
           messages := messages (state w) ++
             [ {| id := numberToString (clock w (ticks w)); role := user;
                  content := input s; trace := None; actionRequired := None;
                  timestamp := clock w (S (ticks w)) |} ] |};
      fetches := fetches w ++ [chatRequest (input s) (messages s)];
      suspended := <[length (fetches w) := AwaitSend (messages s)]> (suspended w);
      console := console w; clock := clock w; ticks := S (S (ticks w)) |}).
Proof.
  intros H. unfold handleSend.
  destruct (negb (truthy (JStr (trim (input s))))) eqn:G.
  - apply blank_guard in G. congruence.
  - reflexivity.
Qed.

Lemma call_onDeny_eq (c : DenyClosure) :
  call_onDeny c w =
  (Normal tt,
   {| state :=
        {| input := input (state w); isThinking := isThinking (state w);
           resolvedActions := resolvedActions (state w) ∪ {[deny_msgId c]};
           messages := messages (state w) ++
             [ {| id := numberToString (clock w (ticks w)); role := assistant;
                  content := lit "Action cancelled."; trace := None;
                  actionRequired := None;
                  timestamp := clock w (S (ticks w)) |} ] |};
      fetches := fetches w; suspended := suspended w;
      console := console w; clock := clock w; ticks := S (S (ticks w)) |}).
Proof. reflexivity. Qed.

Lemma call_onApprove_eq (c : ApproveClosure) :
  call_onApprove c w =
  (Normal tt,
   {| state :=
        {| input := input (state w); isThinking := true;
           resolvedActions := resolvedActions (state w) ∪ {[approve_msgId c]};
           messages := messages (state w) |};
      fetches := fetches w ++
        [chatRequest (executeMessage (action_approval_id (approve_data c))
                                     (action_params (approve_data c)))
                     (approve_messages c)];
      suspended := <[length (fetches w) := AwaitExecute]> (suspended w);
      console := console w; clock := clock w; ticks := ticks w |}).
Proof. reflexivity. Qed.

Lemma handleSend_resume_failure (closure_messages : list Message) (o : FetchOutcome) :
  requestFails o = true ->
  exists e, handleSend_resume closure_messages o w
            = (Normal tt, reported w connection_error e).
Proof.
  destruct o as [|status [data|]]; simpl; intros H.
  - eexists. reflexivity.
  - rewrite orb_false_r in H. eexists. unfold handleSend_resume.
    run_eff. rewrite H. reflexivity.
  - unfold handleSend_resume. run_eff.
    destruct (negb (ok status)); eexists; reflexivity.
Qed.

Lemma handleExecute_resume_failure (o : FetchOutcome) :
  requestFails o = true ->
  exists e, handleExecute_resume o w = (Normal tt, reported w execution_failed e).
Proof.
  destruct o as [|status [data|]]; simpl; intros H.
  - eexists. reflexivity.
  - rewrite orb_false_r in H. eexists. unfold handleExecute_resume.
    run_eff. rewrite H. reflexivity.
  - unfold handleExecute_resume. run_eff.
    destruct (negb (ok status)); eexists; reflexivity.
Qed.

End Handlers.

Section Replies.

Variable w : World.
Variables (status : Z) (data : Response).
Hypothesis status_ok : ok status = true.

(** A reply to [handleSend] becomes a message that carries an action
    exactly when the reply has [action_required]. *)
Lemma handleSend_resume_success (closure_messages : list Message) :
  handleSend_resume closure_messages (HttpResponse status (Some data)) w =
  (Normal tt,
   replied w
     {| id := numberToString (clock w (S (ticks w)) + 1);
        role := assistant;
        content := data_content data;
        trace := Some (default [] (data_trace data));
        timestamp := clock w (S (S (ticks w)));
        actionRequired :=
          (fun d =>
             {| type := approval;
                label := action_label d;
                params := action_params d;
                onApprove :=
                  {| approve_msgId := numberToString (clock w (ticks w) + 1);
                     approve_data := d;
                     approve_messages := closure_messages |};
                onDeny :=
                  {| deny_msgId := numberToString (clock w (ticks w) + 1) |} |})
          <$> data_action_required data |}
     3).
Proof.
  unfold handleSend_resume. run_eff. rewrite status_ok. cbn [negb].
  destruct data as [c [t|] [d|]]; reflexivity.
Qed.

(** A reply to [handleExecute] becomes a message without an action,
    whatever the reply holds. *)
Lemma handleExecute_resume_success :
  handleExecute_resume (HttpResponse status (Some data)) w =
  (Normal tt,
   replied w
     {| id := numberToString (clock w (ticks w));
        role := assistant;
        content := data_content data;
        trace := data_trace data;
        timestamp := clock w (S (ticks w));
        actionRequired := None |}
     2).
Proof.
  unfold handleExecute_resume. run_eff. rewrite status_ok. reflexivity.
Qed.

End Replies.

(* ===================================================================== *)
(** ** The send handler and its gate *)
(* ===================================================================== *)

(** C9 (as amended).  A send handler whose [input] is empty or made of
    white space only returns at once: no state changes and no request goes
    out.  While [isThinking] is true the send button is disabled and the
    Enter key is ignored, in the input element and in [onKeyDown] itself;
    so neither of them sends anything while [isThinking] is true, and
    neither does with a blank input. *)
Theorem send_is_gated (s : State) (w : World) (key : jsstring) :
  (forallb isWhiteSpace (input s) = true -> handleSend s w = (Normal tt, w)) /\
  (forallb isWhiteSpace (input (state w)) = true \/ isThinking (state w) = true ->
   dispatch ClickSend w = (Normal tt, w) /\
   dispatch (KeyDown key) w = (Normal tt, w)) /\
  (isThinking (state w) = true ->
   send_disabled (render (state w)) = true /\
   input_disabled (render (state w)) = true /\
   onKeyDown (state w) key w = (Normal tt, w)).
Proof.
  split; [apply handleSend_blank|]. split.
  - intros [Hblank | Hbusy].
    + pose proof (proj2 (blank_guard _) Hblank) as G.
      unfold dispatch, onKeyDown; cbn [render send_disabled input_disabled].
      rewrite G. cbn [orb]. split; [reflexivity|].
      destruct (isThinking (state w)); [reflexivity|].
      destruct (bool_decide (key = lit "Enter")); cbn [andb negb];
        [now apply handleSend_blank | reflexivity].
    + unfold dispatch; cbn [render send_disabled input_disabled].
      rewrite Hbusy, orb_true_r. split; reflexivity.
  - intros Hbusy. unfold onKeyDown; cbn [render send_disabled input_disabled].
    rewrite Hbusy, orb_true_r, andb_false_r. repeat split.
Qed.

Lemma send_is_gated_witness :
  let blank := lit "  " ++ [160%N; 10%N] in
  let s := {| input := blank; isThinking := false; resolvedActions := ∅;
              messages := [] |} in
  let w := Demo.asking_again Demo.frozen in
  handleSend s w = (Normal tt, w) /\
  (dispatch ClickSend w = (Normal tt, w) /\
   dispatch (KeyDown (lit "Enter")) w = (Normal tt, w)) /\
  (send_disabled (render (state w)) = true /\
   input_disabled (render (state w)) = true /\
   onKeyDown (state w) (lit "Enter") w = (Normal tt, w)).
Proof.
  intros blank s w.
  destruct (send_is_gated s w (lit "Enter")) as (H1 & H2 & H3).
  split; [apply H1; reflexivity|].
  split; [apply H2; right; reflexivity | apply H3; reflexivity].
Defined.

(** C9 (as stated) fails.  In the demo session a second question is in
    flight and [isThinking] is true, yet the Approve button of the earlier
    card sends its chat message.  When the reply to that approval arrives,
    [isThinking] is cleared although the question is still unanswered: the
    send button is enabled again and a click sends a third message. *)
Lemma send_not_gated_by_requests_in_flight :
  let w := Demo.asking_again Demo.frozen in
  isThinking (state w) = true /\
  issued w (ClickApprove 2)
  = [chatRequest (executeMessage (lit "appr-1") (action_params Demo.proposal))
                 [welcome 1700000000000]] /\
  let w' := run w [ClickApprove 2;
                   Settle 2 (HttpResponse 200 (Some Demo.plain));
                   Change (lit "hello?")] in
  suspended w' !! 1%nat = Some (AwaitSend (messages (state (Demo.proposed Demo.frozen)))) /\
  isThinking (state w') = false /\
  send_disabled (render (state w')) = false /\
  issued w' ClickSend
  = [chatRequest (lit "hello?") (messages (state w'))].
Proof. vm_compute. repeat split. Qed.

(* ===================================================================== *)
(** ** The two buttons of an approval card *)
(* ===================================================================== *)

Lemma issued_nothing (w : World) (e : Event) :
  fetches (step w e) = fetches w -> issued w e = [].
Proof. unfold issued. intros ->. apply drop_all. Qed.

Lemma issued_one (w : World) (e : Event) (r : Request) :
  fetches (step w e) = fetches w ++ [r] -> issued w e = [r].
Proof. unfold issued. intros ->. apply drop_app_length. Qed.

(** C2.  Clicking Deny on a card appends one assistant message that reads
    "Action cancelled." to the messages, which are otherwise unchanged, and
    performs no fetch: the log of requests and the suspended handlers are
    what they were. *)
Theorem deny_only_cancels (w : World) (i : nat)
    (deny : DenyClosure) (approve : ApproveClosure) :
  controlsAt (render (state w)) i = Buttons deny approve ->
  exists m,
    messages (state (step w (ClickDeny i))) = messages (state w) ++ [m] /\
    role m = assistant /\
    content m = lit "Action cancelled." /\
    actionRequired m = None /\
    issued w (ClickDeny i) = [] /\
    fetches (step w (ClickDeny i)) = fetches w /\
    suspended (step w (ClickDeny i)) = suspended w /\
    fst (dispatch (ClickDeny i) w) = Normal tt.
Proof.
  intros H.
  assert (E : dispatch (ClickDeny i) w = call_onDeny deny w).
  { unfold dispatch. now rewrite H. }
  assert (F : fetches (step w (ClickDeny i)) = fetches w).
  { unfold step. now rewrite E, call_onDeny_eq. }
  eexists. unfold step at 1 3. rewrite E, call_onDeny_eq. cbn.
  repeat split; auto using issued_nothing.
Qed.

Lemma deny_only_cancels_witness :
  let w := Demo.proposed Demo.frozen in
  exists m,
    messages (state (step w (ClickDeny 2))) = messages (state w) ++ [m] /\
    role m = assistant /\
    content m = lit "Action cancelled." /\
    actionRequired m = None /\
    issued w (ClickDeny 2) = [] /\
    fetches (step w (ClickDeny 2)) = fetches w /\
    suspended (step w (ClickDeny 2)) = suspended w /\
    fst (dispatch (ClickDeny 2) w) = Normal tt.
Proof.
  exact (deny_only_cancels (Demo.proposed Demo.frozen) 2
           Demo.the_deny Demo.the_approve eq_refl).
Defined.





(* ===================================================================== *)
(** ** When a request settles *)
(* ===================================================================== *)

Lemma dispatch_settle (w : World) (rid : nat) (k : Continuation) (o : FetchOutcome) :
  suspended w !! rid = Some k ->
  dispatch (Settle rid o) w = resume k o (unpark rid w).
Proof. intros H. unfold dispatch. now rewrite H. Qed.

(** An outcome either fails or is a 2xx reply with a parsed body. *)
Lemma outcome_cases (o : FetchOutcome) :
  requestFails o = true \/
  exists status data, o = HttpResponse status (Some data) /\ ok status = true.
Proof.
  destruct o as [|status [data|]]; simpl; auto.
  - destruct (ok status) eqn:E; simpl; eauto.
  - rewrite orb_true_r. auto.
Qed.

Lemma connection_error_labeled :
  connection_error = warning_sign ++ lit " Connection Error" ++ lit ": I couldn't reach the Nexus Brain. Is Docker running?".
Proof. reflexivity. Qed.

Lemma execution_failed_labeled :
  execution_failed = warning_sign ++ lit " Execution Failed" ++ lit ": The server encountered an error while processing the approval.".
Proof. reflexivity. Qed.

(** C5.  When a chat or execute request fails (network error, status
    outside 200-299, or unreadable body) the suspended handler completes
    normally, appends one assistant message holding its labeled error text
    (Connection Error for the send handler, Execution Failed for the
    execute handler), which is not empty, and sets [isThinking] to false. *)
Theorem request_failures_are_reported
    (w : World) (rid : nat) (k : Continuation) (o : FetchOutcome) :
  suspended w !! rid = Some k ->
  requestFails o = true ->
  exists m w',
    dispatch (Settle rid o) w = (Normal tt, w') /\
    messages (state w') = messages (state w) ++ [m] /\
    role m = assistant /\
    content m = errorReply k /\
    (exists rest, content m = warning_sign ++ lit " Connection Error" ++ rest \/
                  content m = warning_sign ++ lit " Execution Failed" ++ rest) /\
    content m <> [] /\
    isThinking (state w') = false.
Proof.
  intros Hk Hfail. rewrite (dispatch_settle _ _ _ _ Hk).
  destruct k as [closure_messages|]; cbn [resume errorReply].
  - destruct (handleSend_resume_failure (unpark rid w) closure_messages o Hfail)
      as [e ->].
    do 2 eexists. split; [reflexivity|]. cbn. repeat split; try discriminate.
    eexists. left. apply connection_error_labeled.
  - destruct (handleExecute_resume_failure (unpark rid w) o Hfail) as [e ->].
    do 2 eexists. split; [reflexivity|]. cbn. repeat split; try discriminate.
    eexists. right. apply execution_failed_labeled.
Qed.

Lemma request_failures_are_reported_witness :
  let w := Demo.asking_again Demo.frozen in
  exists m w',
    dispatch (Settle 1 (HttpResponse 502 None)) w = (Normal tt, w') /\
    messages (state w') = messages (state w) ++ [m] /\
    role m = assistant /\
    content m = connection_error /\
    (exists rest, content m = warning_sign ++ lit " Connection Error" ++ rest \/
                  content m = warning_sign ++ lit " Execution Failed" ++ rest) /\
    content m <> [] /\
    isThinking (state w') = false.
Proof.
  exact (request_failures_are_reported (Demo.asking_again Demo.frozen) 1
           (AwaitSend (messages (state (Demo.proposed Demo.frozen))))
           (HttpResponse 502 None) eq_refl eq_refl).
Defined.

(** No event makes a handler end with an exception. *)
Lemma dispatch_never_throws (w : World) (e : Event) :
  fst (dispatch e w) = Normal tt.
Proof.
  destruct e as [value|key| |i|i|rid o]; unfold dispatch.
  - destruct (input_disabled _); reflexivity.
  - destruct (input_disabled _); [reflexivity|]. unfold onKeyDown.
    destruct (_ && _); [|reflexivity].
    destruct (forallb isWhiteSpace (input (state w))) eqn:B.
    + now rewrite handleSend_blank.
    + now rewrite handleSend_sends.
  - destruct (send_disabled _); [reflexivity|].
    destruct (forallb isWhiteSpace (input (state w))) eqn:B.
    + now rewrite handleSend_blank.
    + now rewrite handleSend_sends.
  - destruct (controlsAt _ i); reflexivity.
  - destruct (controlsAt _ i); reflexivity.
  - destruct (suspended w !! rid) as [k|]; [|reflexivity].
    destruct (outcome_cases o) as [F | (status & data & -> & Hok)];
      destruct k as [closure_messages|]; cbn [resume].
    + now destruct (handleSend_resume_failure (unpark rid w) closure_messages o F)
        as [e ->].
    + now destruct (handleExecute_resume_failure (unpark rid w) o F) as [e ->].
    + now rewrite handleSend_resume_success.
    + now rewrite handleExecute_resume_success.
Qed.



(* ===================================================================== *)
(** ** What goes over the wire *)
(* ===================================================================== *)

Lemma history_entries_ok (messages : list Message) :
  isChatBody (JObj [(lit "message", JStr []); (lit "history", history messages)])
  = true.
Proof.
  unfold history. cbn -[lit]. rewrite !bool_decide_eq_true_2 by reflexivity.
  cbn [andb]. induction messages as [|m ms IH]; [reflexivity|].
  cbn [List.map forallb]. rewrite IH, andb_true_r.
  destruct (role m); reflexivity.
Qed.

Lemma chatRequest_body_ok (message : jsstring) (messages : list Message) :
  isChatBody (req_body (chatRequest message messages)) = true.
Proof. exact (history_entries_ok messages). Qed.

(** A step issues no request or one, built by [chatRequest]. *)
Lemma step_fetches (w : World) (e : Event) :
  fetches (step w e) = fetches w \/
  exists message messages,
    fetches (step w e) = fetches w ++ [chatRequest message messages].
Proof.
  assert (S : forall s, fetches (snd (handleSend s w)) = fetches w \/
              exists message messages,
                fetches (snd (handleSend s w))
                = fetches w ++ [chatRequest message messages]).
  { intros s. destruct (forallb isWhiteSpace (input s)) eqn:B.
    - left. now rewrite handleSend_blank.
    - right. rewrite handleSend_sends by assumption. eauto. }
  destruct e as [value|key| |i|i|rid o]; unfold step, dispatch.
  - left. destruct (input_disabled _); reflexivity.
  - destruct (input_disabled _); [now left|]. unfold onKeyDown.
    destruct (_ && _); [apply S | now left].
  - destruct (send_disabled _); [now left | apply S].
  - left. destruct (controlsAt _ i); reflexivity.
  - destruct (controlsAt _ i) as [deny approve|]; [|now left].
    right. rewrite call_onApprove_eq. eauto.
  - left. destruct (suspended w !! rid) as [k|]; [|reflexivity].
    destruct (outcome_cases o) as [F | (status & data & -> & Hok)];
      destruct k as [closure_messages|]; cbn [resume].
    + now destruct (handleSend_resume_failure (unpark rid w) closure_messages o F)
        as [e ->].
    + now destruct (handleExecute_resume_failure (unpark rid w) o F) as [e ->].
    + now rewrite handleSend_resume_success.
    + now rewrite handleExecute_resume_success.
Qed.

(** X15.  Whatever happens on the page, a request it issues goes to the
    chat endpoint with POST and a body [{message: string, history:
    [{role, content}]}].  A 2xx reply to the send handler is read as
    [{content, trace, action_required?}]: its content and trace become
    those of the new message (an absent trace becomes the empty one), and
    [action_required], when present, gives the card its label and params
    and the Approve button its descriptor, approval identifier included. *)
Theorem chat_wire_format (w : World) (e : Event) (rid : nat)
    (closure_messages : list Message) (status : Z) (data : Response) :
  Forall (fun r => req_url r = chat_url /\ req_method r = lit "POST" /\
                   isChatBody (req_body r) = true)
         (issued w e) /\
  (suspended w !! rid = Some (AwaitSend closure_messages) ->
   ok status = true ->
   exists m,
     messages (state (step w (Settle rid (HttpResponse status (Some data)))))
     = messages (state w) ++ [m] /\
     role m = assistant /\
     content m = data_content data /\
     trace m = Some (default [] (data_trace data)) /\
     match data_action_required data with
     | Some d =>
         exists a, actionRequired m = Some a /\
                   label a = action_label d /\
                   params a = action_params d /\
                   approve_data (onApprove a) = d
     | None => actionRequired m = None
     end).
Proof.
  split.
  - destruct (step_fetches w e) as [H | (message & ms & H)].
    + rewrite (issued_nothing _ _ H). constructor.
    + rewrite (issued_one _ _ _ H). repeat constructor.
      apply chatRequest_body_ok.
  - intros Hk Hok. unfold step. rewrite (dispatch_settle _ _ _ _ Hk).
    cbn [resume]. rewrite handleSend_resume_success by assumption.
    eexists. cbn. repeat split.
    destruct (data_action_required data) as [d|]; cbn; [|reflexivity].
    eexists. repeat split.
Qed.

Lemma chat_wire_format_witness :
  let w := Demo.asking_again Demo.frozen in
  Forall (fun r => req_url r = chat_url /\ req_method r = lit "POST" /\
                   isChatBody (req_body r) = true)
         (issued w (ClickApprove 2)) /\
  exists m,
    messages (state (step w (Settle 1 (HttpResponse 200 (Some Demo.proposing)))))
    = messages (state w) ++ [m] /\
    role m = assistant /\
    content m = data_content Demo.proposing /\
    trace m = Some (default [] (data_trace Demo.proposing)) /\
    exists a, actionRequired m = Some a /\
              label a = action_label Demo.proposal /\
              params a = action_params Demo.proposal /\
              approve_data (onApprove a) = Demo.proposal.
Proof.
  intros w.
  destruct (chat_wire_format w (ClickApprove 2) 1
              (messages (state (Demo.proposed Demo.frozen)))
              200 Demo.proposing) as [H1 H2].
  split; [exact H1 | exact (H2 eq_refl eq_refl)].
Defined.

(** C7 (the code departs from it on the execute path).  The reply to an
    approval is a chat response too; here it carries [action_required],
    and the bubble drawn for it has no card, although the comment of line
    222 announces the handling of [handleSend]. *)
Lemma execute_reply_with_action_renders_no_card :
  let w := step (Demo.proposed Demo.frozen) (ClickApprove 2) in
  let w' := step w (Settle 1 (HttpResponse 200 (Some Demo.proposing))) in
  suspended w !! 1%nat = Some AwaitExecute /\
  data_action_required Demo.proposing = Some Demo.proposal /\
  length (bubbles (render (state w'))) = 4%nat /\
  bubble_card <$> (bubbles (render (state w')) !! 3%nat) = Some None.
Proof. vm_compute. repeat split. Qed.

(** X16.  For a 2xx reply to the send handler, the bubble of
    the new message has an approval card exactly when the reply has
    [action_required]; the card shows the descriptor's label, and the two
    buttons as long as the message's id is not among the resolved ones.  A
    reply without [action_required] gives a message with no pending
    action. *)
Theorem send_reply_renders_card_iff_action_required
    (w : World) (rid : nat) (closure_messages : list Message)
    (status : Z) (data : Response) :
  suspended w !! rid = Some (AwaitSend closure_messages) ->
  ok status = true ->
  let w' := step w (Settle rid (HttpResponse status (Some data))) in
  exists m,
    messages (state w') = messages (state w) ++ [m] /\
    (is_Some (bubble_card (renderMessage (resolvedActions (state w')) m))
     <-> is_Some (data_action_required data)) /\
    (forall d, data_action_required data = Some d ->
       exists c, bubble_card (renderMessage (resolvedActions (state w')) m) = Some c /\
                 card_label c = action_label d /\
                 (id m ∉ resolvedActions (state w') ->
                  exists deny approve, card_controls c = Buttons deny approve)) /\
    (data_action_required data = None -> actionRequired m = None).
Proof.
  intros Hk Hok w'. subst w'. unfold step.
  rewrite (dispatch_settle _ _ _ _ Hk). cbn [resume].
  rewrite handleSend_resume_success by assumption.
  eexists. split; [reflexivity|]. cbn.
  destruct (data_action_required data) as [d|]; cbn.
  - split; [split; eauto|]. split; [|discriminate].
    intros d' [= <-]. eexists. repeat split.
    intros Hfresh. rewrite bool_decide_eq_false_2 by assumption. cbn. eauto.
  - split; [split; intros [? ?]; discriminate|]. split; [discriminate|reflexivity].
Qed.

Lemma send_reply_renders_card_iff_action_required_witness :
  let w := Demo.asking_again Demo.frozen in
  let w' := step w (Settle 1 (HttpResponse 200 (Some Demo.proposing))) in
  exists m,
    messages (state w') = messages (state w) ++ [m] /\
    (is_Some (bubble_card (renderMessage (resolvedActions (state w')) m))
     <-> is_Some (data_action_required Demo.proposing)) /\
    (forall d, data_action_required Demo.proposing = Some d ->
       exists c, bubble_card (renderMessage (resolvedActions (state w')) m) = Some c /\
                 card_label c = action_label d /\
                 (id m ∉ resolvedActions (state w') ->
                  exists deny approve, card_controls c = Buttons deny approve)) /\
    (data_action_required Demo.proposing = None -> actionRequired m = None).
Proof.
  exact (send_reply_renders_card_iff_action_required
           (Demo.asking_again Demo.frozen) 1
           (messages (state (Demo.proposed Demo.frozen)))
           200 Demo.proposing eq_refl eq_refl).
Defined.

(* ===================================================================== *)
(** ** How the page evolves *)
(* ===================================================================== *)

(** What one step may change: it appends at most one message, keeps what
    was resolved, gives a new message an action only when a reply to the
    send handler arrives (the action then holds the [messages] the handler
    was suspended with), and suspends a send handler only with the
    [messages] of the current state, while appending the user's message. *)
Lemma step_frame (w : World) (e : Event) :
  exists l,
    messages (state (step w e)) = messages (state w) ++ l /\
    (length l <= 1)%nat /\
    resolvedActions (state w) ⊆ resolvedActions (state (step w e)) /\
    (forall m a, l = [m] -> actionRequired m = Some a ->
       exists rid, suspended w !! rid
                   = Some (AwaitSend (approve_messages (onApprove a)))) /\
    (forall rid ms, suspended (step w e) !! rid = Some (AwaitSend ms) ->
       suspended w !! rid = Some (AwaitSend ms) \/
       (ms = messages (state w) /\ length l = 1%nat)).
Proof.
  assert (Same : forall w', messages (state w') = messages (state w) ->
            resolvedActions (state w') = resolvedActions (state w) ->
            suspended w' = suspended w ->
            exists l,
              messages (state w') = messages (state w) ++ l /\
              (length l <= 1)%nat /\
              resolvedActions (state w) ⊆ resolvedActions (state w') /\
              (forall m a, l = [m] -> actionRequired m = Some a ->
                 exists rid, suspended w !! rid
                   = Some (AwaitSend (approve_messages (onApprove a)))) /\
              (forall rid ms, suspended w' !! rid = Some (AwaitSend ms) ->
                 suspended w !! rid = Some (AwaitSend ms) \/
                 (ms = messages (state w) /\ length l = 1%nat))).
  { intros w' Hm Hr Hs. exists []. rewrite Hm, Hr, Hs, app_nil_r.
    repeat split; auto; try discriminate. }
  assert (Send : forall w', w' = snd (handleSend (state w) w) ->
            exists l,
              messages (state w') = messages (state w) ++ l /\
              (length l <= 1)%nat /\
              resolvedActions (state w) ⊆ resolvedActions (state w') /\
              (forall m a, l = [m] -> actionRequired m = Some a ->
                 exists rid, suspended w !! rid
                   = Some (AwaitSend (approve_messages (onApprove a)))) /\
              (forall rid ms, suspended w' !! rid = Some (AwaitSend ms) ->
                 suspended w !! rid = Some (AwaitSend ms) \/
                 (ms = messages (state w) /\ length l = 1%nat))).
  { intros w' ->. destruct (forallb isWhiteSpace (input (state w))) eqn:B.
    - rewrite handleSend_blank by assumption. now apply Same.
    - rewrite handleSend_sends by assumption. eexists. cbn.
      split; [reflexivity|]. split; [cbn; lia|]. split; [reflexivity|]. split.
      + intros m a [= <-]. discriminate.
      + intros rid ms. rewrite lookup_insert. case_decide.
        * intros [= <-]. right. split; reflexivity.
        * auto. }
  destruct e as [value|key| |i|i|rid o]; unfold step, dispatch.
  - destruct (input_disabled _); now apply Same.
  - destruct (input_disabled _); [now apply Same|]. unfold onKeyDown.
    destruct (_ && _); [now apply Send | now apply Same].
  - destruct (send_disabled _); [now apply Same | now apply Send].
  - destruct (controlsAt _ i) as [deny approve|]; [|now apply Same].
    rewrite call_onDeny_eq. eexists. cbn.
    split; [reflexivity|]. split; [cbn; lia|]. split; [set_solver|].
    split; [intros m a [= <-]; discriminate | auto].
  - destruct (controlsAt _ i) as [deny approve|]; [|now apply Same].
    rewrite call_onApprove_eq. exists []. cbn. rewrite app_nil_r.
    split; [reflexivity|]. split; [cbn; lia|]. split; [set_solver|].
    split; [discriminate|].
    intros rid ms. rewrite lookup_insert. case_decide; [discriminate | auto].
  - destruct (suspended w !! rid) as [k|] eqn:Hk; [|now apply Same].
    assert (Del : forall rid' ms,
              delete rid (suspended w) !! rid' = Some (AwaitSend ms) ->
              suspended w !! rid' = Some (AwaitSend ms)).
    { intros rid' ms. rewrite lookup_delete. case_decide; [discriminate | auto]. }
    destruct (outcome_cases o) as [F | (status & data & -> & Hok)];
      destruct k as [closure_messages|]; cbn [resume].
    + destruct (handleSend_resume_failure (unpark rid w) closure_messages o F)
        as [e ->].
      eexists. cbn. split; [reflexivity|]. split; [cbn; lia|].
      split; [reflexivity|]. split; [intros m a [= <-]; discriminate | auto].
    + destruct (handleExecute_resume_failure (unpark rid w) o F) as [e ->].
      eexists. cbn. split; [reflexivity|]. split; [cbn; lia|].
      split; [reflexivity|]. split; [intros m a [= <-]; discriminate | auto].
    + rewrite handleSend_resume_success by assumption.
      eexists. cbn. split; [reflexivity|]. split; [cbn; lia|].
      split; [reflexivity|]. split; [|auto].
      intros m a [= <-]. cbn.
      destruct (data_action_required data); cbn; [|discriminate].
      intros [= <-]. cbn. eauto.
    + rewrite handleExecute_resume_success by assumption.
      eexists. cbn. split; [reflexivity|]. split; [cbn; lia|].
      split; [reflexivity|]. split; [intros m a [= <-]; discriminate | auto].
Qed.

Lemma run_snoc (w : World) (es : list Event) (e : Event) :
  run w (es ++ [e]) = step (run w es) e.
Proof. unfold run. now rewrite fold_left_app. Qed.

(** Messages are only ever appended, and what is resolved stays so. *)
Lemma run_grows (w : World) (es : list Event) :
  (exists l, messages (state (run w es)) = messages (state w) ++ l) /\
  resolvedActions (state w) ⊆ resolvedActions (state (run w es)).
Proof.
  induction es as [|e es IH] using rev_ind.
  - split; [exists []; now rewrite app_nil_r | reflexivity].
  - rewrite run_snoc. destruct IH as [[l Hl] Hr].
    destruct (step_frame (run w es) e) as (l' & Hl' & _ & Hr' & _).
    split.
    + exists (l ++ l'). now rewrite Hl', Hl, app_assoc.
    + etrans; eassumption.
Qed.

Lemma controlsAt_lookup (s : State) (i : nat) :
  controlsAt (render s) i =
  match messages s !! i with
  | Some m =>
      match bubble_card (renderMessage (resolvedActions s) m) with
      | Some c => card_controls c
      | None => CompletedBadge
      end
  | None => CompletedBadge
  end.
Proof.
  unfold controlsAt, render; cbn [bubbles].
  generalize (messages s) as l. intros l. revert i.
  induction l as [|m l IH]; intros [|i]; cbn; auto.
Qed.

(** Once the id of a message is among the resolved ones, its card shows
    the Completed badge in every later state. *)
Lemma resolved_card_stays_completed (w : World) (i : nat) (m : Message)
    (es : list Event) :
  messages (state w) !! i = Some m ->
  id m ∈ resolvedActions (state w) ->
  controlsAt (render (state (run w es))) i = CompletedBadge.
Proof.
  intros Hm Hid. destruct (run_grows w es) as [[l Hl] Hr].
  rewrite controlsAt_lookup, Hl, (lookup_app_l_Some _ _ _ _ Hm).
  unfold renderMessage; cbn [bubble_card].
  destruct (actionRequired m); [|reflexivity]. cbn [card_controls].
  rewrite bool_decide_eq_true_2 by set_solver. reflexivity.
Qed.

(** What the claim about a card decided once rests on: when the two
    closures of a card record the id of the card's own message, a click on
    either button retires the buttons for good. *)
Lemma decided_card_stays_completed (w : World) (i : nat) (m : Message)
    (a : ActionRequired) (click : Event) (es : list Event) :
  messages (state w) !! i = Some m ->
  actionRequired m = Some a ->
  deny_msgId (onDeny a) = id m ->
  approve_msgId (onApprove a) = id m ->
  click = ClickDeny i \/ click = ClickApprove i ->
  controlsAt (render (state (run (step w click) es))) i = CompletedBadge.
Proof.
  intros Hm Ha Hd Hp Hclick.
  destruct (step_frame w click) as (l & Hl & _ & Hr & _).
  apply resolved_card_stays_completed with (m := m).
  { rewrite Hl. now apply lookup_app_l_Some. }
  destruct (decide (id m ∈ resolvedActions (state w))) as [Hin|Hout];
    [eapply elem_of_weaken; eassumption|].
  assert (C : controlsAt (render (state w)) i = Buttons (onDeny a) (onApprove a)).
  { rewrite controlsAt_lookup, Hm. unfold renderMessage; cbn [bubble_card].
    rewrite Ha. cbn [card_controls].
    now rewrite bool_decide_eq_false_2 by assumption. }
  destruct Hclick as [-> | ->]; unfold step, dispatch; rewrite C.
  - rewrite call_onDeny_eq. cbn. rewrite Hd. set_solver.
  - rewrite call_onApprove_eq. cbn. rewrite Hp. set_solver.
Qed.

(* ===================================================================== *)
(** ** The card that can be decided twice *)
(* ===================================================================== *)

(** C3 (the code departs from it).  [handleSend] reads the clock once for
    [msgId], which the two closures record, and once more for the [id] of
    the message.  With a clock that advances between the two readings the
    ids differ: after Deny the resolved set holds [msgId], the card of
    bubble 2 still offers both buttons, and a click on Approve then sends
    the execution request for the action just denied. *)
Theorem card_reopens_when_clock_ticks :
  let w := Demo.proposed Demo.ticking in
  let w1 := step w (ClickDeny 2) in
  id <$> (messages (state w) !! 2%nat) = Some (numberToString 1700000000005) /\
  controlsAt (render (state w)) 2
  = Buttons {| deny_msgId := numberToString 1700000000004 |}
            {| approve_msgId := numberToString 1700000000004;
               approve_data := Demo.proposal;
               approve_messages := [welcome 1700000000000] |} /\
  resolvedActions (state w1) = {[numberToString 1700000000004]} /\
  controlsAt (render (state w1)) 2 = controlsAt (render (state w)) 2 /\
  issued w1 (ClickApprove 2)
  = [chatRequest (executeMessage (lit "appr-1") (action_params Demo.proposal))
                 [welcome 1700000000000]].
Proof. vm_compute. repeat split. Qed.

(** With a clock that stands still between the two readings the ids agree
    and the same clicks find the card completed. *)
Example card_completes_when_clock_stands_still :
  let w := Demo.proposed Demo.frozen in
  let w1 := step w (ClickDeny 2) in
  controlsAt (render (state w1)) 2 = CompletedBadge /\
  issued w1 (ClickApprove 2) = [].
Proof. vm_compute. repeat split. Qed.

(* ===================================================================== *)
(** ** The history sent with a request *)
(* ===================================================================== *)

(** The send handler sends the messages of the current state. *)
Lemma send_history_is_current (w : World) :
  send_disabled (render (state w)) = false ->
  issued w ClickSend = [chatRequest (input (state w)) (messages (state w))].
Proof.
  intros H. apply issued_one. unfold step, dispatch. rewrite H.
  cbn [render send_disabled] in H. apply orb_false_elim in H as [H _].
  rewrite handleSend_sends; [reflexivity|].
  destruct (forallb isWhiteSpace (input (state w))) eqn:B; [|reflexivity].
  apply blank_guard in B. congruence.
Qed.

Lemma closuresLagBehind_initial (clock : nat -> Z) :
  closuresLagBehind (initialWorld clock).
Proof.
  split.
  - intros [|[|i]] m a; cbn; try discriminate. intros [= <-]. discriminate.
  - intros rid ms. cbn. rewrite lookup_empty. discriminate.
Qed.

Lemma closuresLagBehind_step (w : World) (e : Event) :
  closuresLagBehind w -> closuresLagBehind (step w e).
Proof.
  intros [Hcards Hsusp].
  destruct (step_frame w e) as (l & Hl & Hlen & _ & Hnew & Hsend).
  split.
  - intros i m a. rewrite Hl. intros Hi Ha.
    apply lookup_app_Some in Hi as [Hi | [Hge Hi]]; [eauto|].
    destruct l as [|m' [|? ?]]; [discriminate| |cbn in Hlen; lia].
    destruct (i - length (messages (state w)))%nat eqn:D; [|discriminate].
    cbn in Hi. injection Hi as ->.
    destruct (Hnew m a eq_refl Ha) as [rid Hrid].
    apply Hsusp in Hrid. lia.
  - intros rid ms Hrid. rewrite Hl, length_app.
    destruct (Hsend rid ms Hrid) as [Hold | [-> Hone]].
    + apply Hsusp in Hold. lia.
    + lia.
Qed.

Lemma closuresLagBehind_run (clock : nat -> Z) (es : list Event) :
  closuresLagBehind (run (initialWorld clock) es).
Proof.
  induction es as [|e es IH] using rev_ind.
  - apply closuresLagBehind_initial.
  - rewrite run_snoc. now apply closuresLagBehind_step.
Qed.

Lemma history_length (ms : list Message) :
  exists entries, history ms = JArr entries /\ length entries = length ms.
Proof. eexists. split; [reflexivity|]. apply length_map. Qed.

(** In every state the page can reach, the request sent by an Approve
    button carries the history of an earlier render: it stops before the
    message that holds the card, so it is never the current list. *)
Lemma approve_history_lags (clock : nat -> Z) (es : list Event) (i : nat)
    (deny : DenyClosure) (approve : ApproveClosure) :
  let w := run (initialWorld clock) es in
  controlsAt (render (state w)) i = Buttons deny approve ->
  exists r entries,
    issued w (ClickApprove i) = [r] /\
    historyOf r = JArr entries /\
    (length entries < i < length (messages (state w)))%nat /\
    historyOf r <> history (messages (state w)).
Proof.
  intros w C.
  destruct (closuresLagBehind_run clock es) as [Hcards _]. fold w in Hcards.
  pose proof C as C'. rewrite controlsAt_lookup in C'.
  destruct (messages (state w) !! i) as [m|] eqn:Hm; [|discriminate].
  unfold renderMessage in C'; cbn [bubble_card] in C'.
  destruct (actionRequired m) as [a|] eqn:Ha; [|discriminate].
  cbn [card_controls] in C'.
  destruct (negb _); [|discriminate]. injection C' as _ <-.
  pose proof (Hcards i m a Hm Ha) as Hlag.
  pose proof (lookup_lt_Some _ _ _ Hm) as Hi.
  destruct (history_length (approve_messages (onApprove a))) as (entries & He & Hn).
  exists (chatRequest (executeMessage (action_approval_id (approve_data (onApprove a)))
                                      (action_params (approve_data (onApprove a))))
                      (approve_messages (onApprove a))), entries.
  split.
  { apply issued_one. unfold step, dispatch. rewrite C.
    now rewrite call_onApprove_eq. }
  assert (Hh : historyOf (chatRequest
                 (executeMessage (action_approval_id (approve_data (onApprove a)))
                                 (action_params (approve_data (onApprove a))))
                 (approve_messages (onApprove a)))
               = history (approve_messages (onApprove a))) by reflexivity.
  rewrite Hh, He. split; [reflexivity|]. split; [lia|].
  destruct (history_length (messages (state w))) as (cur & -> & Hcur).
  intros [= ->]. lia.
Qed.

(** C6 (the code departs from it on the execute path).  In the demo
    session the page shows three messages when Approve is clicked; the
    request that goes out carries the one message that existed when the
    question was sent, not the projection of the current three. *)
Theorem execute_history_is_stale :
  let w := Demo.proposed Demo.frozen in
  exists r,
    issued w (ClickApprove 2) = [r] /\
    historyOf r = history [welcome 1700000000000] /\
    List.map content (messages (state w))
    = [content (welcome 1700000000000); lit "create a VIP list";
       lit "I can create that list for you."] /\
    historyOf r <> history (messages (state w)).
Proof.
  eexists. split; [vm_compute; reflexivity|].
  split; [vm_compute; reflexivity|].
  split; [vm_compute; reflexivity|].
  vm_compute. discriminate.
Qed.

(* ===================================================================== *)
(** ** Events and the handlers they reach *)
(* ===================================================================== *)

Lemma send_enabled_nonblank (s : State) :
  send_disabled (render s) = false ->
  forallb isWhiteSpace (input s) = false /\ isThinking s = false.
Proof.
  cbn [render send_disabled]. intros H. apply orb_false_elim in H as [H ->].
  split; [|reflexivity].
  destruct (forallb isWhiteSpace (input s)) eqn:B; [|reflexivity].
  apply blank_guard in B. congruence.
Qed.

(** Every step is one of the cases of [fires]. *)
Lemma step_fires (w : World) (e : Event) : fires w e (step w e).
Proof.
  destruct e as [value|key| |i|i|rid o]; unfold step, dispatch.
  - destruct (input_disabled _) eqn:D; [constructor|].
    now apply fires_change.
  - destruct (input_disabled _) eqn:D; [constructor|]. unfold onKeyDown.
    cbn [render input_disabled] in D. rewrite D. cbn [negb]. rewrite andb_true_r.
    case_bool_decide as K; [subst key | constructor].
    destruct (send_disabled (render (state w))) eqn:S.
    + cbn [render send_disabled] in S. rewrite D, orb_false_r in S.
      apply blank_guard in S. rewrite handleSend_blank by assumption.
      constructor.
    + apply fires_send; auto.
  - destruct (send_disabled _) eqn:S; [constructor|]. apply fires_send; auto.
  - destruct (controlsAt _ i) as [deny approve|] eqn:C; [|constructor].
    now apply fires_deny with approve.
  - destruct (controlsAt _ i) as [deny approve|] eqn:C; [|constructor].
    now apply fires_approve with deny.
  - destruct (suspended w !! rid) as [k|] eqn:Hk; [|constructor].
    now apply fires_settle.
Qed.

(** What a resumed handler does, whichever it is: it reports a failure, or
    it turns a 2xx reply into a message. *)
Lemma resume_shape (k : Continuation) (o : FetchOutcome) (w : World) :
  (requestFails o = true /\
   exists e, resume k o w = (Normal tt, reported w (errorReply k) e)) \/
  (exists status data m n,
     o = HttpResponse status (Some data) /\ ok status = true /\
     resume k o w = (Normal tt, replied w m n) /\
     role m = assistant /\
     content m = data_content data /\
     match k with
     | AwaitSend closure_messages =>
         id m = numberToString (clock w (S (ticks w)) + 1) /\
         trace m = Some (default [] (data_trace data)) /\
         actionRequired m
         = (fun d => cardFor (numberToString (clock w (ticks w) + 1)) d
                             closure_messages)
           <$> data_action_required data
     | AwaitExecute =>
         id m = numberToString (clock w (ticks w)) /\
         trace m = data_trace data /\
         actionRequired m = None
     end).
Proof.
  destruct (outcome_cases o) as [F | (status & data & -> & Hok)].
  - left. split; [assumption|]. destruct k as [closure_messages|]; cbn [resume errorReply].
    + apply handleSend_resume_failure, F.
    + apply handleExecute_resume_failure, F.
  - right. exists status, data. destruct k as [closure_messages|]; cbn [resume].
    + do 2 eexists. split; [reflexivity|]. split; [assumption|].
      split; [now apply handleSend_resume_success|]. cbn. repeat split.
    + do 2 eexists. split; [reflexivity|]. split; [assumption|].
      split; [now apply handleExecute_resume_success|]. cbn. repeat split.
Qed.

Lemma not_all_white (l : jsstring) :
  forallb isWhiteSpace l = false <-> exists c, c ∈ l /\ isWhiteSpace c = false.
Proof.
  induction l as [|c l IH]; cbn.
  - split; [discriminate | intros (c & Hc & _); inversion Hc].
  - destruct (isWhiteSpace c) eqn:E; cbn.
    + rewrite IH. split.
      * intros (c' & Hin & Hc'). exists c'. split; [now constructor | assumption].
      * intros (c' & Hin & Hc'). exists c'. split; [|assumption].
        apply elem_of_cons in Hin as [-> | Hin]; [congruence | assumption].
    + split; [|reflexivity]. intros _. exists c. split; [constructor | assumption].
Qed.

(** X1.  The send button is enabled exactly when the page is not thinking
    and the input holds at least one character that is not white space. *)
Theorem send_enabled_iff_visible_text (s : State) :
  send_disabled (render s) = false <->
  isThinking s = false /\ exists c, c ∈ input s /\ isWhiteSpace c = false.
Proof.
  rewrite <- not_all_white. split.
  - intros H. apply send_enabled_nonblank in H. tauto.
  - intros [Hidle Hvis]. cbn [render send_disabled]. rewrite Hidle, orb_false_r.
    destruct (negb (truthy (JStr (trim (input s))))) eqn:G; [|reflexivity].
    apply blank_guard in G. congruence.
Qed.

(** X2.  A click on the enabled send button appends one user message
    holding the input as typed (not trimmed), empties the input, sets
    [isThinking], and issues one request whose [message] is that same
    text and whose history is the messages as they were before the new
    one; the handler is then suspended on that request. *)
Theorem send_posts_input_and_appends_it (w : World) :
  send_disabled (render (state w)) = false ->
  let w' := step w ClickSend in
  exists q,
    messages (state w') = messages (state w) ++ [q] /\
    role q = user /\ content q = input (state w) /\
    actionRequired q = None /\ trace q = None /\
    input (state w') = [] /\ isThinking (state w') = true /\
    resolvedActions (state w') = resolvedActions (state w) /\
    issued w ClickSend = [chatRequest (input (state w)) (messages (state w))] /\
    suspended w' !! length (fetches w) = Some (AwaitSend (messages (state w))).
Proof.
  intros H w'. subst w'.
  assert (E : step w ClickSend = snd (handleSend (state w) w)).
  { unfold step, dispatch. now rewrite H. }
  destruct (send_enabled_nonblank _ H) as [B _].
  rewrite handleSend_sends in E by assumption. cbn [snd] in E.
  eexists. rewrite (issued_one w ClickSend _ (f_equal fetches E)), E. cbn.
  repeat split. apply lookup_insert_eq.
Qed.

Lemma send_posts_input_and_appends_it_witness :
  let w := step (Demo.proposed Demo.frozen) (Change (lit " what next? ")) in
  let w' := step w ClickSend in
  exists q,
    messages (state w') = messages (state w) ++ [q] /\
    role q = user /\ content q = lit " what next? " /\
    actionRequired q = None /\ trace q = None /\
    input (state w') = [] /\ isThinking (state w') = true /\
    resolvedActions (state w') = resolvedActions (state w) /\
    issued w ClickSend = [chatRequest (lit " what next? ") (messages (state w))] /\
    suspended w' !! length (fetches w) = Some (AwaitSend (messages (state w))).
Proof.
  exact (send_posts_input_and_appends_it
           (step (Demo.proposed Demo.frozen) (Change (lit " what next? ")))
           eq_refl).
Defined.

(** X3.  Pressing Enter in the input does what a click on the send button
    does, in every state; any other key does nothing. *)
Theorem enter_is_send (w : World) (key : jsstring) :
  (key = lit "Enter" -> dispatch (KeyDown key) w = dispatch ClickSend w) /\
  (key <> lit "Enter" -> dispatch (KeyDown key) w = (Normal tt, w)).
Proof.
  split.
  - intros ->. unfold dispatch, onKeyDown. cbn [render input_disabled send_disabled].
    rewrite (bool_decide_eq_true_2 _ eq_refl).
    destruct (isThinking (state w)); [now rewrite orb_true_r|].
    rewrite orb_false_r. cbn [negb andb].
    destruct (negb (truthy (JStr (trim (input (state w)))))) eqn:G; [|reflexivity].
    apply blank_guard in G. now apply handleSend_blank.
  - intros K. unfold dispatch, onKeyDown.
    rewrite (bool_decide_eq_false_2 _ K). cbn [andb].
    destruct (input_disabled _); reflexivity.
Qed.

Lemma enter_is_send_witness :
  let w := step (Demo.proposed Demo.frozen) (Change (lit "thanks")) in
  dispatch (KeyDown (lit "Enter")) w = dispatch ClickSend w /\
  dispatch (KeyDown (lit "Escape")) w = (Normal tt, w).
Proof.
  intros w. split.
  - now apply (enter_is_send w (lit "Enter")).
  - apply (enter_is_send w (lit "Escape")). discriminate.
Defined.

(* ===================================================================== *)
(** ** Requests, replies and the thinking indicator *)
(* ===================================================================== *)

Lemma fires_requests (w : World) (e : Event) (w' : World) :
  fires w e w' ->
  fetches w' = fetches w \/
  (exists r, fetches w' = fetches w ++ [r]) /\
  (e = ClickSend \/ e = KeyDown (lit "Enter") \/ exists i, e = ClickApprove i) /\
  isThinking (state w') = true /\
  is_Some (suspended w' !! length (fetches w)).
Proof.
  destruct 1 as [e|value Hidle|e He Hs|i deny approve C|i deny approve C|rid k o Hk].
  - now left.
  - now left.
  - right. destruct (send_enabled_nonblank _ Hs) as [B _].
    rewrite handleSend_sends by assumption. cbn. rewrite lookup_insert_eq.
    repeat split; eauto. tauto.
  - now left.
  - right. rewrite call_onApprove_eq. cbn. rewrite lookup_insert_eq.
    repeat split; eauto.
  - left. destruct (resume_shape k o (unpark rid w))
      as [[_ [x ->]] | (status & data & m & n & _ & _ & -> & _)]; reflexivity.
Qed.

(** X4.  A request goes out only on a click on the send button, on Enter,
    or on a click on Approve; never when a reply or a failure arrives (no
    retry, no follow-up), on typing, or on Deny.  The event issues exactly
    one request, leaves [isThinking] true and a handler suspended on it. *)
Theorem requests_come_from_user_actions (w : World) (e : Event) :
  issued w e <> [] ->
  (e = ClickSend \/ e = KeyDown (lit "Enter") \/ exists i, e = ClickApprove i) /\
  length (issued w e) = 1%nat /\
  isThinking (state (step w e)) = true /\
  is_Some (suspended (step w e) !! length (fetches w)).
Proof.
  intros H.
  destruct (fires_requests w e _ (step_fires w e)) as [F | ([r F] & He & Ht & Hs)].
  - now rewrite (issued_nothing _ _ F) in H.
  - rewrite (issued_one _ _ _ F). auto.
Qed.

Lemma requests_come_from_user_actions_witness :
  let w := Demo.proposed Demo.frozen in
  (ClickApprove 2 = ClickSend \/ ClickApprove 2 = KeyDown (lit "Enter") \/
   exists i, ClickApprove 2 = ClickApprove i) /\
  length (issued w (ClickApprove 2)) = 1%nat /\
  isThinking (state (step w (ClickApprove 2))) = true /\
  is_Some (suspended (step w (ClickApprove 2)) !! length (fetches w)).
Proof.
  apply (requests_come_from_user_actions (Demo.proposed Demo.frozen)
           (ClickApprove 2)).
  vm_compute. discriminate.
Defined.

(** X5.  When a request settles, whatever the outcome and whichever
    handler was waiting, [isThinking] becomes false, exactly one assistant
    message is appended, the handler is no longer suspended, and every
    other suspended handler stays so: the indicator stops even if other
    requests are still in flight. *)
Theorem settle_clears_thinking
    (w : World) (rid : nat) (k : Continuation) (o : FetchOutcome) :
  suspended w !! rid = Some k ->
  let w' := step w (Settle rid o) in
  isThinking (state w') = false /\
  (exists m, messages (state w') = messages (state w) ++ [m] /\
             role m = assistant) /\
  suspended w' = delete rid (suspended w) /\
  input (state w') = input (state w) /\
  resolvedActions (state w') = resolvedActions (state w).
Proof.
  intros Hk w'. subst w'. unfold step. rewrite (dispatch_settle _ _ _ _ Hk).
  destruct (resume_shape k o (unpark rid w))
    as [[_ [x ->]] | (status & data & m & n & _ & _ & -> & Hr & _)]; cbn;
    repeat split; eauto.
Qed.

Lemma settle_clears_thinking_witness :
  let w := step (Demo.asking_again Demo.frozen) (ClickApprove 2) in
  let w' := step w (Settle 2 (HttpResponse 200 (Some Demo.plain))) in
  isThinking (state w') = false /\
  (exists m, messages (state w') = messages (state w) ++ [m] /\
             role m = assistant) /\
  suspended w' = delete 2%nat (suspended w) /\
  input (state w') = input (state w) /\
  resolvedActions (state w') = resolvedActions (state w).
Proof.
  exact (settle_clears_thinking
           (step (Demo.asking_again Demo.frozen) (ClickApprove 2)) 2
           AwaitExecute (HttpResponse 200 (Some Demo.plain)) eq_refl).
Defined.

Lemma resume_rejected_status (k : Continuation) (status : Z)
    (body : option Response) (w : World) :
  ok status = false ->
  resume k (HttpResponse status body) w
  = (Normal tt,
     reported w (errorReply k)
       (Error (lit "Server error: " ++ numberToString status))).
Proof.
  intros H. destruct k as [closure_messages|]; cbn [resume errorReply].
  - unfold handleSend_resume. run_eff. rewrite H. reflexivity.
  - unfold handleExecute_resume. run_eff. rewrite H. reflexivity.
Qed.

(** X6.  A failed request writes exactly one entry to the console and a
    successful one writes none.  For a status outside 200-299 the entry is
    the error "Server error: <status>", whatever the body: the status
    reaches the console only, while the message shown to the user is the
    fixed error text of the handler. *)
Theorem failures_are_logged
    (w : World) (rid : nat) (k : Continuation) (o : FetchOutcome) :
  suspended w !! rid = Some k ->
  let w' := step w (Settle rid o) in
  (if requestFails o
   then exists e, console w' = console w ++ [e]
   else console w' = console w) /\
  (forall status body,
     o = HttpResponse status body -> ok status = false ->
     console w' = console w
                  ++ [Error (lit "Server error: " ++ numberToString status)] /\
     exists m, messages (state w') = messages (state w) ++ [m] /\
               content m = errorReply k).
Proof.
  intros Hk w'. subst w'. unfold step. rewrite (dispatch_settle _ _ _ _ Hk).
  split.
  - destruct (resume_shape k o (unpark rid w))
      as [[F [x ->]] | (status & data & m & n & -> & Hok & -> & _)].
    + rewrite F. eauto.
    + cbn. rewrite Hok. reflexivity.
  - intros status body -> Hbad. rewrite resume_rejected_status by assumption.
    cbn. eauto.
Qed.

Lemma failures_are_logged_witness :
  let w := Demo.asking_again Demo.frozen in
  let w' := step w (Settle 1 (HttpResponse 503 (Some Demo.plain))) in
  (exists e, console w' = console w ++ [e]) /\
  (forall status body,
     HttpResponse 503 (Some Demo.plain) = HttpResponse status body ->
     ok status = false ->
     console w' = console w
                  ++ [Error (lit "Server error: " ++ numberToString status)] /\
     exists m, messages (state w') = messages (state w) ++ [m] /\
               content m = connection_error).
Proof.
  exact (failures_are_logged (Demo.asking_again Demo.frozen) 1
           (AwaitSend (messages (state (Demo.proposed Demo.frozen))))
           (HttpResponse 503 (Some Demo.plain)) eq_refl).
Defined.

(** X7.  A 2xx reply is shown with its content as received.  The two
    handlers treat a reply without
    [trace] differently: the send handler stores the empty trace, so the
    bubble has an (empty) trace panel, while the execute handler stores
    none, so the bubble has no trace panel. *)
Theorem reply_trace_panel (w : World) (rid : nat) (k : Continuation)
    (status : Z) (data : Response) (resolved : gset jsstring) :
  suspended w !! rid = Some k ->
  ok status = true ->
  exists m,
    messages (state (step w (Settle rid (HttpResponse status (Some data)))))
    = messages (state w) ++ [m] /\
    bubble_content (renderMessage resolved m) = data_content data /\
    bubble_trace (renderMessage resolved m)
    = match k with
      | AwaitSend _ => Some (default [] (data_trace data))
      | AwaitExecute => data_trace data
      end /\
    (data_trace data = None ->
     is_Some (bubble_trace (renderMessage resolved m))
     <-> exists closure_messages, k = AwaitSend closure_messages).
Proof.
  intros Hk Hok. unfold step. rewrite (dispatch_settle _ _ _ _ Hk).
  destruct k as [closure_messages|]; cbn [resume].
  - rewrite handleSend_resume_success by assumption. eexists.
    split; [reflexivity|]. cbn. split; [reflexivity|]. split; [reflexivity|].
    intros _. split; eauto.
  - rewrite handleExecute_resume_success by assumption. eexists.
    split; [reflexivity|]. cbn. split; [reflexivity|]. split; [reflexivity|].
    intros ->. split; intros [? ?]; discriminate.
Qed.

Lemma reply_trace_panel_witness :
  let w := step (Demo.proposed Demo.frozen) (ClickApprove 2) in
  exists m,
    messages (state (step w (Settle 1 (HttpResponse 200 (Some Demo.plain)))))
    = messages (state w) ++ [m] /\
    bubble_content (renderMessage ∅ m) = data_content Demo.plain /\
    bubble_trace (renderMessage ∅ m) = data_trace Demo.plain /\
    (data_trace Demo.plain = None ->
     is_Some (bubble_trace (renderMessage ∅ m))
     <-> exists closure_messages, AwaitExecute = AwaitSend closure_messages).
Proof.
  exact (reply_trace_panel
           (step (Demo.proposed Demo.frozen) (ClickApprove 2)) 1
           AwaitExecute 200 Demo.plain ∅ eq_refl eq_refl).
Defined.

(* ===================================================================== *)
(** ** Invariants of the conversation *)
(* ===================================================================== *)

(** X8.  Whatever happens on the page, the conversation is only ever
    appended to, by at most one message per event; the log of requests
    grows in the same way and nothing leaves the set of resolved ids. *)
Theorem conversation_is_append_only (w : World) (es : list Event) :
  messages (state w) `prefix_of` messages (state (run w es)) /\
  (length (messages (state (run w es)))
   <= length (messages (state w)) + length es)%nat /\
  fetches w `prefix_of` fetches (run w es) /\
  (length (fetches (run w es)) <= length (fetches w) + length es)%nat /\
  resolvedActions (state w) ⊆ resolvedActions (state (run w es)).
Proof.
  induction es as [|e es IH] using rev_ind.
  - cbn. rewrite !Nat.add_0_r. repeat split; reflexivity.
  - rewrite run_snoc, length_app. cbn [length].
    destruct IH as (Hm & Hlm & Hf & Hlf & Hr).
    destruct (step_frame (run w es) e) as (l & Hl & Hlen & Hr' & _).
    assert (F : fetches (run w es) `prefix_of` fetches (step (run w es) e) /\
                (length (fetches (step (run w es) e))
                 <= length (fetches (run w es)) + 1)%nat).
    { destruct (step_fetches (run w es) e) as [-> | (msg & ms & ->)].
      - split; [reflexivity | lia].
      - split; [now apply prefix_app_r | rewrite length_app; cbn; lia]. }
    destruct F as [F Fl]. repeat split.
    + rewrite Hl. etrans; [exact Hm | now apply prefix_app_r].
    + rewrite Hl, length_app. lia.
    + etrans; eassumption.
    + lia.
    + etrans; eassumption.
Qed.

Lemma thinkingHasCause_fires (w : World) (e : Event) (w' : World) :
  fires w e w' -> thinkingHasCause w -> thinkingHasCause w'.
Proof.
  unfold thinkingHasCause.
  destruct 1 as [e|value Hidle|e He Hs|i deny approve C|i deny approve C|rid k o Hk];
    intros IH.
  - exact IH.
  - cbn. exact IH.
  - destruct (send_enabled_nonblank _ Hs) as [B _].
    rewrite handleSend_sends by assumption. cbn. intros _.
    do 2 eexists. apply lookup_insert_eq.
  - rewrite call_onDeny_eq. cbn. exact IH.
  - rewrite call_onApprove_eq. cbn. intros _.
    do 2 eexists. apply lookup_insert_eq.
  - destruct (resume_shape k o (unpark rid w))
      as [[_ [x ->]] | (status & data & m & n & _ & _ & -> & _)]; cbn;
      discriminate.
Qed.

(** X9.  In every state the page can reach, the thinking indicator is
    shown only while some request is still in flight. *)
Theorem thinking_means_request_in_flight (clock : nat -> Z) (es : list Event) :
  let w := run (initialWorld clock) es in
  isThinking (state w) = true ->
  exists rid k, suspended w !! rid = Some k /\
                (rid < length (fetches w))%nat.
Proof.
  cbn zeta.
  assert (I : thinkingHasCause (run (initialWorld clock) es) /\
              forall rid k, suspended (run (initialWorld clock) es) !! rid = Some k ->
                            (rid < length (fetches (run (initialWorld clock) es)))%nat).
  { induction es as [|e es [IH1 IH2]] using rev_ind.
    - split; [intros H; discriminate|]. intros rid k. cbn.
      rewrite lookup_empty. discriminate.
    - rewrite run_snoc. split.
      + eapply thinkingHasCause_fires; [apply step_fires | exact IH1].
      + set (w := run (initialWorld clock) es) in *.
        pose proof (step_fires w e) as F.
        remember (step w e) as w' eqn:E. clear E.
        destruct F as [e|value Hidle|e He Hs|i deny approve C|i deny approve C|rid0 k0 o Hk];
          intros rid k.
        * apply IH2.
        * cbn. apply IH2.
        * destruct (send_enabled_nonblank _ Hs) as [B _].
          rewrite handleSend_sends by assumption. cbn.
          rewrite length_app, lookup_insert. cbn. case_decide.
          -- intros _. lia.
          -- intros H'. apply IH2 in H'. lia.
        * rewrite call_onDeny_eq. cbn. apply IH2.
        * rewrite call_onApprove_eq. cbn.
          rewrite length_app, lookup_insert. cbn. case_decide.
          -- intros _. lia.
          -- intros H'. apply IH2 in H'. lia.
        * assert (D : forall x, delete rid0 (suspended w) !! rid = Some x ->
                        (rid < length (fetches w))%nat).
          { intros x. rewrite lookup_delete. case_decide; [discriminate|].
            apply IH2. }
          destruct (resume_shape k0 o (unpark rid0 w))
            as [[_ [x ->]] | (status & data & m & n & _ & _ & -> & _)]; cbn;
            apply D. }
  destruct I as [I1 I2]. intros H. destruct (I1 H) as (rid & k & Hk).
  exists rid, k. split; [assumption | eapply I2; eassumption].
Qed.

Lemma thinking_means_request_in_flight_witness :
  let w := run (initialWorld Demo.frozen)
               [Change (lit "create a VIP list"); KeyDown (lit "Enter")] in
  exists rid k, suspended w !! rid = Some k /\
                (rid < length (fetches w))%nat.
Proof.
  exact (thinking_means_request_in_flight Demo.frozen
           [Change (lit "create a VIP list"); KeyDown (lit "Enter")] eq_refl).
Defined.

(** What a step appends: nothing, or one message that is plain (a user
    message without trace, or an assistant message), or the assistant's
    answer to a suspended send handler, with the card built for it. *)
Lemma fires_appends (w : World) (e : Event) (w' : World) :
  fires w e w' ->
  exists l,
    messages (state w') = messages (state w) ++ l /\
    (l = [] \/
     (exists m, l = [m] /\ actionRequired m = None /\
                (role m = user -> trace m = None)) \/
     (exists m rid closure_messages msgId d,
        l = [m] /\ role m = assistant /\
        suspended w !! rid = Some (AwaitSend closure_messages) /\
        actionRequired m = Some (cardFor msgId d closure_messages))) /\
    (forall rid ms, suspended w' !! rid = Some (AwaitSend ms) ->
       suspended w !! rid = Some (AwaitSend ms) \/
       (ms = messages (state w) /\ exists q, l = [q] /\ role q = user)).
Proof.
  destruct 1 as [e|value Hidle|e He Hs|i deny approve C|i deny approve C|rid k o Hk].
  - exists []. rewrite app_nil_r. auto.
  - exists []. cbn. rewrite app_nil_r. auto.
  - destruct (send_enabled_nonblank _ Hs) as [B _].
    rewrite handleSend_sends by assumption. eexists. cbn.
    split; [reflexivity|]. split.
    + right. left. eexists. repeat split.
    + intros rid ms. rewrite lookup_insert. case_decide; [|auto].
      intros [= <-]. right. split; [reflexivity|]. eexists. split; reflexivity.
  - rewrite call_onDeny_eq. eexists. cbn. split; [reflexivity|]. split; [|auto].
    right. left. eexists. repeat split.
  - rewrite call_onApprove_eq. exists []. cbn. rewrite app_nil_r.
    split; [reflexivity|]. split; [auto|].
    intros rid ms. rewrite lookup_insert. case_decide; [discriminate | auto].
  - assert (D : forall rid' ms,
              delete rid (suspended w) !! rid' = Some (AwaitSend ms) ->
              suspended w !! rid' = Some (AwaitSend ms)).
    { intros rid' ms. rewrite lookup_delete. case_decide; [discriminate | auto]. }
    destruct (resume_shape k o (unpark rid w))
      as [[_ [x ->]] | (status & data & m & n & _ & _ & -> & Hrole & _ & Hk')].
    + eexists. cbn. split; [reflexivity|]. split; [|auto].
      right. left. eexists. repeat split.
    + exists [m]. cbn. split; [reflexivity|]. split; [|auto].
      right. destruct k as [closure_messages|].
      * destruct Hk' as (_ & _ & Ha).
        destruct (data_action_required data) as [d|]; cbn in Ha.
        -- right. exists m, rid, closure_messages. eauto 10.
        -- left. exists m. repeat split; [assumption | congruence].
      * destruct Hk' as (_ & _ & Ha).
        left. exists m. repeat split; [assumption | congruence].
Qed.

Lemma cardsConsistent_fires (w : World) (e : Event) (w' : World) :
  fires w e w' -> cardsConsistent w -> cardsConsistent w'.
Proof.
  intros F IH. destruct (fires_appends w e w' F) as (l & Hl & Hcases & _).
  intros i m. rewrite Hl. intros Hi.
  apply lookup_app_Some in Hi as [Hi | [_ Hi]]; [exact (IH i m Hi)|].
  destruct Hcases as [-> | [(m' & -> & Ha & Ht) | (m' & rid & ms & msgId & d & -> & Hr & _ & Ha)]].
  - now rewrite lookup_nil in Hi.
  - apply list_lookup_singleton_Some in Hi as [_ <-].
    split; [auto|]. intros a. congruence.
  - apply list_lookup_singleton_Some in Hi as [_ <-].
    split; [congruence|]. intros a. rewrite Ha. intros [= <-]. cbn. auto.
Qed.

Lemma cardsConsistent_run (clock : nat -> Z) (es : list Event) :
  cardsConsistent (run (initialWorld clock) es).
Proof.
  induction es as [|e es IH] using rev_ind.
  - intros [|[|i]] m; cbn; try discriminate. intros [= <-]. cbn.
    split; [discriminate|]. intros a. discriminate.
  - rewrite run_snoc. eapply cardsConsistent_fires; [apply step_fires | exact IH].
Qed.

(** X10.  In every state the page can reach, a message of the user shows
    neither a trace panel nor an approval card. *)
Theorem user_messages_are_plain (clock : nat -> Z) (es : list Event)
    (i : nat) (m : Message) :
  let w := run (initialWorld clock) es in
  messages (state w) !! i = Some m ->
  role m = user ->
  bubble_trace (renderMessage (resolvedActions (state w)) m) = None /\
  bubble_card (renderMessage (resolvedActions (state w)) m) = None.
Proof.
  intros w Hm Hu.
  destruct (cardsConsistent_run clock es i m Hm) as [H _].
  destruct (H Hu) as [Ha Ht]. unfold renderMessage. cbn. now rewrite Ha, Ht.
Qed.

Lemma user_messages_are_plain_witness :
  let w := Demo.proposed Demo.frozen in
  let m := {| id := numberToString 1700000000000; role := user;
              content := lit "create a VIP list"; trace := None;
              actionRequired := None; timestamp := 1700000000000 |} in
  bubble_trace (renderMessage (resolvedActions (state w)) m) = None /\
  bubble_card (renderMessage (resolvedActions (state w)) m) = None.
Proof.
  exact (user_messages_are_plain Demo.frozen
           [Change (lit "create a VIP list"); KeyDown (lit "Enter");
            Settle 0 (HttpResponse 200 (Some Demo.proposing))]
           1 _ eq_refl eq_refl).
Defined.



(* ===================================================================== *)
(** ** What an approval card remembers *)
(* ===================================================================== *)






(** X13.  If the clock does not advance between the two readings that
    [handleSend] takes for a reply with [action_required], the card of the
    new message can be decided once only: after a click on either of its
    buttons the card shows the Completed badge in every later state, and a
    further click on either button changes nothing and sends nothing. *)
Theorem card_decided_once_when_ids_agree
    (w : World) (rid : nat) (closure_messages : list Message)
    (status : Z) (data : Response) (d : ActionDescriptor)
    (click again : Event) (es : list Event) :
  suspended w !! rid = Some (AwaitSend closure_messages) ->
  ok status = true ->
  data_action_required data = Some d ->
  clock w (ticks w) = clock w (S (ticks w)) ->
  let i := length (messages (state w)) in
  click = ClickDeny i \/ click = ClickApprove i ->
  again = ClickDeny i \/ again = ClickApprove i ->
  let w1 := step w (Settle rid (HttpResponse status (Some data))) in
  let w2 := run (step w1 click) es in
  controlsAt (render (state w2)) i = CompletedBadge /\
  step w2 again = w2 /\
  issued w2 again = [].
Proof.
  intros Hk Hok Hd Hclock i Hclick Hagain w1 w2.
  assert (E : w1 = replied (unpark rid w)
                {| id := numberToString (clock w (S (ticks w)) + 1);
                   role := assistant;
                   content := data_content data;
                   trace := Some (default [] (data_trace data));
                   timestamp := clock w (S (S (ticks w)));
                   actionRequired :=
                     Some (cardFor (numberToString (clock w (ticks w) + 1)) d
                                   closure_messages) |} 3).
  { subst w1. unfold step. rewrite (dispatch_settle _ _ _ _ Hk). cbn [resume].
    rewrite handleSend_resume_success by assumption. now rewrite Hd. }
  assert (Hm : messages (state w1) !! i
               = Some {| id := numberToString (clock w (S (ticks w)) + 1);
                         role := assistant;
                         content := data_content data;
                         trace := Some (default [] (data_trace data));
                         timestamp := clock w (S (S (ticks w)));
                         actionRequired :=
                           Some (cardFor (numberToString (clock w (ticks w) + 1)) d
                                         closure_messages) |}).
  { rewrite E. cbn. apply list_lookup_middle. reflexivity. }
  assert (Done : controlsAt (render (state w2)) i = CompletedBadge).
  { subst w2. eapply decided_card_stays_completed;
      [exact Hm | reflexivity | | | exact Hclick]; cbn; now rewrite Hclock. }
  split; [exact Done|].
  assert (S : step w2 again = w2).
  { unfold step, dispatch. destruct Hagain as [-> | ->]; now rewrite Done. }
  split; [exact S|]. apply issued_nothing. now rewrite S.
Qed.

Lemma card_decided_once_when_ids_agree_witness :
  let w := Demo.asking_again Demo.frozen in
  let w1 := step w (Settle 1 (HttpResponse 200 (Some Demo.proposing))) in
  let w2 := run (step w1 (ClickApprove 4)) [Change (lit "x"); ClickDeny 4] in
  controlsAt (render (state w2)) 4 = CompletedBadge /\
  step w2 (ClickDeny 4) = w2 /\
  issued w2 (ClickDeny 4) = [].
Proof.
  exact (card_decided_once_when_ids_agree
           (Demo.asking_again Demo.frozen) 1
           (messages (state (Demo.proposed Demo.frozen)))
           200 Demo.proposing Demo.proposal
           (ClickApprove 4) (ClickDeny 4) [Change (lit "x"); ClickDeny 4]
           eq_refl eq_refl eq_refl eq_refl (or_intror eq_refl)
           (or_introl eq_refl)).
Defined.

(** X14.  For given params, the text sent on approval determines the
    approval identifier: two approvals with different identifiers never
    send the same message. *)
Theorem execute_message_identifies_approval
    (approvalId1 approvalId2 : jsstring) (params : JSValue) :
  executeMessage approvalId1 params = executeMessage approvalId2 params ->
  approvalId1 = approvalId2.
Proof.
  unfold executeMessage.
  set (tail := lit ". Please call execute_action now.").
  set (extra := lit " Fallback Params: list_name=" ++ dquote
                ++ toString (getProp params (lit "list_name")) ++ dquote).
  destruct (truthy params && truthy (getProp params (lit "list_name"))).
  - rewrite <- !app_assoc. intros H. apply app_inv_head in H.
    rewrite !app_assoc in H. apply app_inv_tail in H.
    now apply app_inv_tail in H.
  - intros H. apply app_inv_head in H. now apply app_inv_tail in H.
Qed.

Lemma execute_message_identifies_approval_witness :
  lit "appr-1" = lit "appr-1".
Proof.
  exact (execute_message_identifies_approval (lit "appr-1") (lit "appr-1")
           (action_params Demo.proposal) eq_refl).
Defined.

(* ===================================================================== *)
(** ** The same reply on the two paths *)
(* ===================================================================== *)

(** C4 (the code departs from it on the execute path).  Both requests of
    the demo session have the body [{message, history}], and the same 2xx
    reply, which carries [action_required], is sent back to each.  The
    send handler reads it as [{content, trace, action_required}] and builds
    the card from the descriptor.  The execute handler, whose comment at
    line 222 announces the same handling, keeps the content and the trace
    and drops [action_required]: its message has no action and its bubble
    no card, so label, approval id and params of the reply reach no
    card. *)
Theorem execute_reply_drops_action_required :
  let reply := HttpResponse 200 (Some Demo.proposing) in
  let asked := Demo.asking_again Demo.frozen in
  let approved := step (Demo.proposed Demo.frozen) (ClickApprove 2) in
  suspended asked !! 1%nat
  = Some (AwaitSend (messages (state (Demo.proposed Demo.frozen)))) /\
  suspended approved !! 1%nat = Some AwaitExecute /\
  forallb (fun r => bool_decide (req_url r = chat_url) && isChatBody (req_body r))
          (fetches asked ++ fetches approved) = true /\
  (fun m => (content m, trace m, actionRequired m))
    <$> last (messages (state (step asked (Settle 1 reply))))
  = Some (data_content Demo.proposing,
          data_trace Demo.proposing,
          Some (cardFor (numberToString 1700000000001) Demo.proposal
                        (messages (state (Demo.proposed Demo.frozen))))) /\
  (fun m => (content m, trace m, actionRequired m))
    <$> last (messages (state (step approved (Settle 1 reply))))
  = Some (data_content Demo.proposing, data_trace Demo.proposing, None) /\
  bubble_card <$> last (bubbles (render (state (step approved (Settle 1 reply)))))
  = Some None.
Proof.
  vm_compute. repeat split.
Qed.
